(** * Feedback ingestion and notification dispatch

    A shallow embedding of the two Netlify functions of the repository,
    [netlify/functions/feedback/index.ts] and
    [netlify/functions/send-notification/index.ts], and the properties
    of the ingestion and dispatch pipeline proved about them.

    The handlers are [async] functions that talk to a store (Supabase),
    to the network ([fetch]) and to the console.  They are embedded in a
    small monad that threads the store, a logical clock, the trace of
    interactions and the requests in flight, and that carries JavaScript
    exceptions, so that [try]/[catch], [await] and [Promise.all] are
    written where the source has them.  The clock counts the ticks a run
    spends waiting for the network. *)

From Stdlib Require Import Floats NArith String Ascii DecimalString.
From stdpp Require Import gmap list.

Set Warnings "-register-all".
Set Default Proof Using "Type".

(** ** JavaScript values *)

Module JS.

(** A JavaScript string is a sequence of UTF-16 code units. *)
Abbreviation jsstring := (list N).

(** An ASCII literal as a JavaScript string. *)
Definition str (s : string) : jsstring :=
  List.map N_of_ascii (list_ascii_of_string s).
Arguments str s%_string.

(** [WhiteSpace] and [LineTerminator] of ECMAScript: the code units that
    [String.prototype.trim] removes. *)
Definition is_white_space (c : N) : bool :=
  existsb (N.eqb c)
    [0x9; 0xA; 0xB; 0xC; 0xD; 0x20; 0xA0; 0x1680; 0x2028; 0x2029;
     0x202F; 0x205F; 0x3000; 0xFEFF]%N
  || (0x2000 <=? c)%N && (c <=? 0x200A)%N.

Fixpoint trimStart (s : jsstring) : jsstring :=
  match s with
  | c :: s' => if is_white_space c then trimStart s' else s
  | [] => []
  end.

Definition trimEnd (s : jsstring) : jsstring :=
  rev (trimStart (rev s)).

(** [s.trim()] *)
Definition trim (s : jsstring) : jsstring := trimEnd (trimStart s).

(** The values [JSON.parse] produces, and [undefined], which reading a
    missing property produces.  Numbers are IEEE 754 doubles. *)
Inductive JSVal : Type :=
| JUndefined
| JNull
| JBool (b : bool)
| JNum (x : float)
| JStr (s : jsstring)
| JArr (xs : list JSVal)
| JObj (fields : list (jsstring * JSVal)).

(** [ToBoolean]: what [if (v)], [!v] and [v || w] test. *)
Definition truthy (v : JSVal) : bool :=
  match v with
  | JUndefined | JNull => false
  | JBool b => b
  | JNum x => negb (PrimFloat.is_zero x || PrimFloat.is_nan x)
  | JStr s => negb (bool_decide (s = []))
  | JArr _ | JObj _ => true
  end.

(** [a || b] *)
Definition or (a b : JSVal) : JSVal := if truthy a then a else b.

(** [!!a] *)
Definition to_bool (a : JSVal) : JSVal := JBool (truthy a).

(** A value that may be [undefined]: a header, an environment variable. *)
Definition of_option (o : option jsstring) : JSVal :=
  match o with Some s => JStr s | None => JUndefined end.

Fixpoint join (sep : jsstring) (l : list jsstring) : jsstring :=
  match l with
  | [] => []
  | [s] => s
  | s :: l' => s ++ sep ++ join sep l'
  end.

(** [ToString], as a template literal applies it.  [num] prints a
    number ([Number::toString], left to the runtime). *)
Fixpoint ToString (num : float -> jsstring) (v : JSVal) : jsstring :=
  match v with
  | JUndefined => str "undefined"
  | JNull => str "null"
  | JBool true => str "true"
  | JBool false => str "false"
  | JNum x => num x
  | JStr s => s
  | JArr xs =>
      join (str ",")
        (List.map (fun x => match x with
                            | JUndefined | JNull => []
                            | _ => ToString num x
                            end) xs)
  | JObj _ => str "[object Object]"
  end.

(** The exceptions the handlers can meet. *)
Inductive Exn : Type :=
| TypeError                      (* reading a property of null, calling a non-function *)
| SyntaxError                    (* JSON.parse *)
| FetchError                     (* the request could not be made or answered *)
| StoreError                     (* the error object a store call reports *)
| Error (msg : jsstring).        (* new Error(msg) *)

Fixpoint lookup_field (k : jsstring) (fields : list (jsstring * JSVal)) : JSVal :=
  match fields with
  | [] => JUndefined
  | (k', v) :: rest => if bool_decide (k = k') then v else lookup_field k rest
  end.

(** [const { k } = v], for a name [k] that no built-in prototype
    defines (every name the handlers destructure is such a name):
    [null] and [undefined] cannot be destructured, an object gives its
    own property, any other value gives [undefined]. *)
Definition get (v : JSVal) (k : jsstring) : Exn + JSVal :=
  match v with
  | JUndefined | JNull => inl TypeError
  | JObj fields => inr (lookup_field k fields)
  | _ => inr JUndefined
  end.

(** [v?.trim()] on a value that came out of [JSON.parse]: skipped on
    [null] and [undefined], the trimmed string on a string, and a
    [TypeError] on anything else, whose [trim] is not a function. *)
Definition optional_trim (v : JSVal) : Exn + JSVal :=
  match v with
  | JUndefined | JNull => inr JUndefined
  | JStr s => inr (JStr (trim s))
  | _ => inl TypeError
  end.

End JS.

(** ** The world the functions run in *)

Module Form.
(** A row of the [forms] table. *)
Record t : Type := mk { id : JS.jsstring; url : JS.jsstring }.
End Form.

Module NotificationSetting.
(** A row of the [notification_settings] table. *)
Record t : Type :=
  mk { form_id : JS.jsstring; email : JS.jsstring; enabled : bool }.
End NotificationSetting.

Module FeedbackRecord.
(** The object the ingestion handler hands to [insert]. *)
Record row : Type :=
  mk_row {
    form_id : JS.JSVal;
    message : JS.JSVal;
    operating_system : JS.JSVal;
    image_url : JS.JSVal;
    image_name : JS.JSVal;
    image_size : JS.JSVal;
    screen_category : JS.JSVal;
    user_id : JS.JSVal;
    user_email : JS.JSVal;
    user_name : JS.JSVal
  }.
(** A row of the [feedback] table: the store adds [created_at]. *)
Record t : Type := mk { fields : row; created_at : JS.jsstring }.
End FeedbackRecord.

Module Runtime.
Import JS.

(** The tables of the store. *)
Record Store : Type :=
  mkStore {
    forms : list Form.t;
    feedback : list FeedbackRecord.t;
    notification_settings : list NotificationSetting.t
  }.

(** How the store treats a call: it answers, it resolves with an
    [error] and no [data], or the call rejects. *)
Inductive Mode : Type := Answers | Fails | Throws.

(** The second argument of [fetch]. *)
Record FetchInit : Type :=
  mkInit {
    method : jsstring;
    req_headers : list (jsstring * JSVal);
    req_body : jsstring
  }.

(** What [fetch] settles to: a rejection, or a response with its
    status and its text ([None] when reading the text rejects). *)
Inductive FetchOutcome : Type :=
| Rejects
| Responds (status : N) (text : option jsstring).

(** A pending request: the tick at which it settles, and to what. *)
Record Promise : Type :=
  mkPromise { settle_at : nat; outcome : FetchOutcome }.

(** Everything outside the two source files: the built-ins the runtime
    provides, the helper imported from [./validation] (not among the
    sources; taken as it is typed at its call), the environment
    variables, the behaviour of the store and of the network.  The
    network answers the [n]-th request of a run to [url] with a latency
    in ticks and an outcome. *)
Record World : Type :=
  mkWorld {
    JSON_parse : jsstring -> option JSVal;
    JSON_stringify : JSVal -> jsstring;
    Number_toString : float -> jsstring;
    isValidOrigin : JSVal -> JSVal -> bool;
    env : gmap jsstring jsstring;
    forms_mode : Mode;
    settings_mode : Mode;
    insert_mode : Mode;
    insert_returning : bool;
    timestamp : jsstring;
    network : nat -> jsstring -> FetchInit -> nat * FetchOutcome
  }.

(** What a run does that can be seen from outside, in program order. *)
Inductive Ev : Type :=
| EvLog (label : jsstring)                         (* console.log *)
| EvError (label : jsstring)                       (* console.error *)
| EvSelectForm (id : JSVal)                        (* from('forms') *)
| EvSelectSettings (id : JSVal)                    (* from('notification_settings') *)
| EvInsert (rows : list FeedbackRecord.row)        (* from('feedback').insert *)
| EvFetch (url : jsstring) (init : FetchInit).     (* fetch *)

Definition is_store_access (e : Ev) : bool :=
  match e with
  | EvSelectForm _ | EvSelectSettings _ | EvInsert _ => true
  | _ => false
  end.

Definition is_form_lookup (e : Ev) : bool :=
  match e with EvSelectForm _ => true | _ => false end.

Definition is_insert (e : Ev) : bool :=
  match e with EvInsert _ => true | _ => false end.

Definition is_fetch (e : Ev) : bool :=
  match e with EvFetch _ _ => true | _ => false end.

(** The state of a run: the store, the logical clock, the trace so
    far, and the requests issued so far. *)
Record St : Type :=
  mkSt { db : Store; now : nat; trace : list Ev; inflight : list Promise }.

Definition start (d : Store) : St :=
  {| db := d; now := 0; trace := []; inflight := [] |}.

(** The requests that have not settled yet. *)
Definition pending (s : St) : list Promise :=
  List.filter (fun p => now s <? settle_at p) (inflight s).

(** *** The monad of the handlers *)

Definition M (A : Type) : Type := St -> St * (Exn + A).

Definition ret {A} (a : A) : M A := fun s => (s, inr a).

Definition bind {A B} (c : M A) (k : A -> M B) : M B :=
  fun s =>
    match c s with
    | (s', inr a) => k a s'
    | (s', inl e) => (s', inl e)
    end.

Definition throw {A} (e : Exn) : M A := fun s => (s, inl e).

(** [try { c } catch (e) { h e }] *)
Definition try_catch {A} (c : M A) (h : Exn -> M A) : M A :=
  fun s =>
    match c s with
    | (s', inl e) => h e s'
    | r => r
    end.

(** A pure step that may throw. *)
Definition lift {A} (r : Exn + A) : M A := fun s => (s, r).

Definition emit (e : Ev) : M unit :=
  fun s =>
    ({| db := db s; now := now s; trace := trace s ++ [e];
        inflight := inflight s |}, inr tt).

Definition get_db : M Store := fun s => (s, inr (db s)).

Definition set_db (d : Store) : M unit :=
  fun s =>
    ({| db := d; now := now s; trace := trace s; inflight := inflight s |},
     inr tt).

(** The clock moves forward to [t] (it never moves back). *)
Definition wait_until (t : nat) : M unit :=
  fun s =>
    ({| db := db s; now := Nat.max (now s) t; trace := trace s;
        inflight := inflight s |}, inr tt).

End Runtime.

Declare Scope js_scope.
Delimit Scope js_scope with js.
Notation "x <- c ;; k" := (Runtime.bind c (fun x => k))
  (at level 100, c at next level, right associativity) : js_scope.
Notation "c ;;; k" := (Runtime.bind c (fun _ => k))
  (at level 100, right associativity) : js_scope.

(** ** The calls the handlers make *)

Module Effects.
Import JS Runtime.
Local Open Scope js_scope.

(** The Netlify event and response. *)
Record Event : Type :=
  mkEvent {
    httpMethod : jsstring;
    headers : gmap jsstring jsstring;
    body : option jsstring
  }.

Record Response : Type :=
  mkResp { statusCode : N; resp_headers : JSVal; resp_body : JSVal }.

(** [console.log(label, ...)] and [console.error(label, ...)]: the
    trace keeps the label, the logged object has no effect on the run. *)
Definition console_log (label : string) : M unit := emit (EvLog (str label)).
Definition console_error (label : string) : M unit := emit (EvError (str label)).

(** [.single()]: the row when exactly one matches, no data otherwise. *)
Definition single {A} (rows : list A) : option A :=
  match rows with
  | [r] => Some r
  | _ => None
  end.

(** [a || 'literal'] for a string that may be undefined. *)
Definition or_else (a : option jsstring) (d : jsstring) : jsstring :=
  match a with
  | Some (c :: s) => c :: s
  | _ => d
  end.

(** The answer of [insert]. *)
Record InsertResult : Type :=
  mkResult { error : option Exn; data : option (list FeedbackRecord.t) }.

(** A response of [fetch] as the handlers read it. *)
Record FetchResponse : Type :=
  mkResponse { status : N; body_text : option jsstring }.

(** [response.ok] *)
Definition ok (r : FetchResponse) : bool :=
  ((200 <=? status r) && (status r <=? 299))%N.

(** [await response.text()] *)
Definition text (r : FetchResponse) : M jsstring :=
  match body_text r with
  | Some t => ret t
  | None => throw FetchError
  end.

Definition rejected (p : Promise) : bool :=
  match outcome p with Rejects => true | Responds _ _ => false end.

(** [await p]: the run resumes when [p] has settled, with its response
    or with its rejection thrown. *)
Definition await (p : Promise) : M FetchResponse :=
  wait_until (settle_at p) ;;;
  match outcome p with
  | Rejects => throw FetchError
  | Responds st txt => ret {| status := st; body_text := txt |}
  end.

(** The rejected promise that settles first (the earlier in the array
    when two settle in the same tick). *)
Definition first_rejection (ps : list Promise) : option Promise :=
  foldr (fun p acc =>
           if rejected p then
             match acc with
             | Some q => if settle_at p <=? settle_at q then Some p else acc
             | None => Some p
             end
           else acc) None ps.

(** The tick at which the last of [ps] settles. *)
Definition last_settled (ps : list Promise) : nat :=
  foldr Nat.max 0 (List.map settle_at ps).

Definition responses (ps : list Promise) : list FetchResponse :=
  omap (fun p => match outcome p with
                 | Responds st txt => Some {| status := st; body_text := txt |}
                 | Rejects => None
                 end) ps.

(** [await Promise.all(ps)]: rejects as soon as one promise rejects,
    and otherwise fulfils when the last one has. *)
Definition Promise_all (ps : list Promise) : M (list FetchResponse) :=
  match first_rejection ps with
  | Some p => wait_until (settle_at p) ;;; throw FetchError
  | None => wait_until (last_settled ps) ;;; ret (responses ps)
  end.

(** [xs.map(f)] where [f] has effects: left to right. *)
Fixpoint mapM {A B} (f : A -> M B) (xs : list A) : M (list B) :=
  match xs with
  | [] => ret []
  | x :: xs' => y <- f x ;; ys <- mapM f xs' ;; ret (y :: ys)
  end.

Section WithWorld.
Variable w : World.

(** [JSON.parse(text)] *)
Definition parse (text : jsstring) : M JSVal :=
  match JSON_parse w text with
  | Some v => ret v
  | None => throw SyntaxError
  end.

(** [process.env.NAME] *)
Definition process_env (name : string) : JSVal :=
  of_option (env w !! str name).

(** A template literal: the pieces in order, values through
    [ToString]. *)
Definition template (pieces : list JSVal) : jsstring :=
  concat (List.map (ToString (Number_toString w)) pieces).

(** [.eq(column, value)]: the client sends the filter as the text
    [eq.${value}]. *)
Definition eq_filter (column : jsstring) (value : JSVal) : bool :=
  bool_decide (column = template [value]).

(** [supabase.from('forms').select('url').eq('id', formId).single()],
    the [data] of the answer. *)
Definition select_form (formId : JSVal) : M (option Form.t) :=
  emit (EvSelectForm formId) ;;;
  match forms_mode w with
  | Throws => throw StoreError
  | Fails => ret None
  | Answers =>
      d <- get_db ;;
      ret (single (List.filter (fun f => eq_filter (Form.id f) formId) (forms d)))
  end.

(** [supabase.from('notification_settings').select('email')
      .eq('form_id', formId).eq('enabled', true)], the [data] of the
    answer. *)
Definition select_enabled_emails (formId : JSVal) : M (option (list jsstring)) :=
  emit (EvSelectSettings formId) ;;;
  match settings_mode w with
  | Throws => throw StoreError
  | Fails => ret None
  | Answers =>
      d <- get_db ;;
      ret (Some
             (List.map NotificationSetting.email
                (List.filter
                   (fun n => eq_filter (NotificationSetting.form_id n) formId
                             && NotificationSetting.enabled n)
                   (notification_settings d))))
  end.

(** [supabase.from('feedback').insert(rows)]: when the store accepts
    the rows it stamps and appends them, and it hands them back or
    not ([insert_returning]). *)
Definition insert_feedback (rows : list FeedbackRecord.row) : M InsertResult :=
  emit (EvInsert rows) ;;;
  match insert_mode w with
  | Throws => throw StoreError
  | Fails => ret {| error := Some StoreError; data := None |}
  | Answers =>
      let stored := List.map (fun r => FeedbackRecord.mk r (timestamp w)) rows in
      d <- get_db ;;
      set_db {| forms := forms d;
                feedback := feedback d ++ stored;
                notification_settings := notification_settings d |} ;;;
      ret {| error := None;
             data := if insert_returning w then Some stored else None |}
  end.

(** [fetch(url, init)]: the request leaves now and its promise
    settles when the network says; nothing waits for it yet. *)
Definition fetch (url : jsstring) (init : FetchInit) : M Promise :=
  fun s =>
    let answer := network w (length (inflight s)) url init in
    let p := {| settle_at := now s + answer.1; outcome := answer.2 |} in
    ({| db := db s; now := now s;
        trace := trace s ++ [EvFetch url init];
        inflight := inflight s ++ [p] |}, inr p).

End WithWorld.

End Effects.

(** ** [netlify/functions/feedback/index.ts] *)

Module Feedback.
Import JS Runtime Effects.
Local Open Scope js_scope.

Definition getCorsHeaders (origin : JSVal) : JSVal :=
  JObj
    [ (str "Access-Control-Allow-Origin", or origin (JStr (str "*")));
      (str "Access-Control-Allow-Headers", JStr (str "Content-Type, Accept, Origin"));
      (str "Access-Control-Allow-Methods", JStr (str "POST, OPTIONS"));
      (str "Access-Control-Max-Age", JStr (str "86400"));
      (str "Content-Type", JStr (str "application/json"));
      (str "Vary", JStr (str "Origin")) ].

(** [event.headers.origin || event.headers.Origin] *)
Definition declared_origin (event : Event) : JSVal :=
  or (of_option (headers event !! str "origin"))
     (of_option (headers event !! str "Origin")).

(** [event.body || '{}'] *)
Definition body_or_empty (event : Event) : jsstring :=
  or_else (body event) (str "{}").

Definition default_notification_url : jsstring :=
  str "https://userbird.co/.netlify/functions/send-notification".

Section WithWorld.
Variable w : World.

Definition validateFormId (formId origin : JSVal) : M bool :=
  try_catch
    (form <- select_form w formId ;;
     match form with
     | None => ret false
     | Some form => ret (isValidOrigin w origin (JStr (Form.url form)))
     end)
    (fun _ => ret false).

(** [{ statusCode, headers, body: JSON.stringify({ error: msg }) }] *)
Definition error_response (code : N) (headers : JSVal) (msg : string) : Response :=
  {| statusCode := code; resp_headers := headers;
     resp_body := JStr (JSON_stringify w (JObj [ (str "error", JStr (str msg)) ])) |}.

(** [{ statusCode: 200, headers, body: JSON.stringify({ success: true }) }] *)
Definition success_response (headers : JSVal) : Response :=
  {| statusCode := 200; resp_headers := headers;
     resp_body := JStr (JSON_stringify w (JObj [ (str "success", JBool true) ])) |}.

Definition handler (event : Event) : M Response :=
  let origin := declared_origin event in
  let headers := getCorsHeaders origin in
  (* Handle preflight *)
  if bool_decide (httpMethod event = str "OPTIONS") then
    ret {| statusCode := 204; resp_headers := headers; resp_body := JUndefined |}
  else
  try_catch
    ((* Validate request *)
     if negb (bool_decide (httpMethod event = str "POST")) then
       ret (error_response 405 headers "Method not allowed")
     else
     body <- parse w (body_or_empty event) ;;
     formId <- lift (get body (str "formId")) ;;
     message <- lift (get body (str "message")) ;;
     image_url <- lift (get body (str "image_url")) ;;
     image_name <- lift (get body (str "image_name")) ;;
     image_size <- lift (get body (str "image_size")) ;;
     operating_system <- lift (get body (str "operating_system")) ;;
     screen_category <- lift (get body (str "screen_category")) ;;
     user_id <- lift (get body (str "user_id")) ;;
     user_email <- lift (get body (str "user_email")) ;;
     user_name <- lift (get body (str "user_name")) ;;
     (* !formId || !message?.trim() *)
     invalid <- (if negb (truthy formId) then ret true
                 else trimmed <- lift (optional_trim message) ;;
                      ret (negb (truthy trimmed))) ;;
     if (invalid : bool) then
       ret (error_response 400 headers "Invalid request data")
     else
     (* Validate origin *)
     isValid <- (if truthy origin then validateFormId formId origin
                 else ret true) ;;
     if negb isValid then
       ret (error_response 403 headers "Origin not allowed")
     else
     (* Get notification URL from environment variable *)
     let notificationUrl :=
       or_else (env w !! str "NOTIFICATION_URL") default_notification_url in
     (* Store feedback *)
     result <- insert_feedback w
       [ {| FeedbackRecord.form_id := formId;
            FeedbackRecord.message := message;
            FeedbackRecord.operating_system := or operating_system (JStr (str "Unknown"));
            FeedbackRecord.image_url := or image_url JNull;
            FeedbackRecord.image_name := or image_name JNull;
            FeedbackRecord.image_size := or image_size JNull;
            FeedbackRecord.screen_category := or screen_category (JStr (str "Unknown"));
            FeedbackRecord.user_id := or user_id JNull;
            FeedbackRecord.user_email := or user_email JNull;
            FeedbackRecord.user_name := or user_name JNull |} ] ;;
     match error result with
     | Some insertError => throw insertError
     | None =>
     (* Send success response immediately *)
     let response := success_response headers in
     (* Send notification *)
     match data result with
     | Some feedbackData =>
         (* Fire and forget notification *)
         console_log "Environment check:" ;;;
         created_at <- match feedbackData with
                       | first :: _ => ret (JStr (FeedbackRecord.created_at first))
                       | [] => throw TypeError
                       end ;;
         let notificationData :=
           JObj [ (str "formId", formId);
                  (str "message", message);
                  (str "userName", user_name);
                  (str "userEmail", user_email);
                  (str "operating_system", operating_system);
                  (str "screen_category", screen_category);
                  (str "image_url", image_url);
                  (str "created_at", created_at) ] in
         console_log "Sending notification with data:" ;;;
         promise <- fetch w notificationUrl
           {| method := str "POST";
              req_headers :=
                [ (str "Content-Type", JStr (str "application/json"));
                  (str "Authorization",
                   JStr (template w [ JStr (str "Bearer ");
                                      process_env w "SUPABASE_SERVICE_ROLE_KEY" ])) ];
              req_body := JSON_stringify w notificationData |} ;;
         (* await promise.then(async (response) => ...).catch((error) => ...) *)
         try_catch
           (res <- await promise ;;
            text <- text res ;;
            console_log "Notification endpoint response:" ;;;
            if negb (ok res) then
              throw (Error (template w
                [ JStr (str "Notification failed: ");
                  JStr (str (NilZero.string_of_uint (N.to_uint (status res))));
                  JStr (str " "); JStr text ]))
            else ret tt)
           (fun _ => console_error "Notification request failed:") ;;;
         console_log "Notification request completed" ;;;
         ret response
     | None => ret response
     end
     end)
    (fun _ =>
       console_error "Error:" ;;;
       ret (error_response 500 headers "Internal server error")).

End WithWorld.

End Feedback.

(** ** [netlify/functions/send-notification/index.ts] *)

Module SendNotification.
Import JS Runtime Effects.
Local Open Scope js_scope.

(** [event.body || '{}'] *)
Definition body_or_empty (event : Event) : jsstring :=
  or_else (body event) (str "{}").

Section WithWorld.
Variable w : World.

Definition json_response (code : N) (v : JSVal) : Response :=
  {| statusCode := code; resp_headers := JUndefined;
     resp_body := JStr (JSON_stringify w v) |}.

(** The two arguments of the [fetch] for one recipient. *)
Definition email_url : jsstring :=
  template w [ process_env w "URL";
               JStr (str "/.netlify/functions/emails/feedback-notification") ].

Definition email_init (form : Form.t) (formId message userName userEmail : JSVal)
    (email : jsstring) : FetchInit :=
  {| method := str "POST";
     req_headers :=
       [ (str "netlify-emails-secret", process_env w "NETLIFY_EMAILS_SECRET") ];
     req_body :=
       JSON_stringify w
         (JObj [ (str "from", JStr (str "notifications@userbird.co"));
                 (str "to", JStr email);
                 (str "subject",
                  JStr (template w [ JStr (str "New feedback received for ");
                                     JStr (Form.url form) ]));
                 (str "parameters",
                  JObj [ (str "formUrl", JStr (Form.url form));
                         (str "formId", formId);
                         (str "message", message);
                         (str "userName", userName);
                         (str "userEmail", userEmail);
                         (str "hasUserInfo", to_bool (or userName userEmail)) ]) ]) |}.

(** The callback of [settings.map]. *)
Definition send_email (form : Form.t) (formId message userName userEmail : JSVal)
    (email : jsstring) : M Promise :=
  console_log "Sending email to:" ;;;
  fetch w email_url (email_init form formId message userName userEmail email).

Definition handler (event : Event) : M Response :=
  (* Only allow POST requests *)
  if negb (bool_decide (httpMethod event = str "POST")) then
    ret {| statusCode := 405; resp_headers := JUndefined;
           resp_body := JStr (str "Method Not Allowed") |}
  else
  try_catch
    (payload <- parse w (body_or_empty event) ;;
     formId <- lift (get payload (str "formId")) ;;
     message <- lift (get payload (str "message")) ;;
     userName <- lift (get payload (str "userName")) ;;
     userEmail <- lift (get payload (str "userEmail")) ;;
     console_log "Processing notification request:" ;;;
     (* Get form details and notification settings *)
     form <- select_form w formId ;;
     match form with
     | None =>
         console_log "Form not found:" ;;;
         ret (json_response 404 (JObj [ (str "error", JStr (str "Form not found")) ]))
     | Some form =>
     (* Get notification settings *)
     settings <- select_enabled_emails w formId ;;
     console_log "Notification settings found:" ;;;
     match settings with
     | None | Some [] =>
         (* !settings?.length *)
         console_log "No notification settings found for form:" ;;;
         ret (json_response 200
                (JObj [ (str "message", JStr (str "No notification settings found")) ]))
     | Some settings =>
     (* Send email to each recipient *)
     emailPromises <-
       mapM (send_email form formId message userName userEmail) settings ;;
     Promise_all emailPromises ;;;
     console_log "All notification emails sent successfully" ;;;
     ret (json_response 200 (JObj [ (str "success", JBool true) ]))
     end
     end)
    (fun _ =>
       console_error "Error sending notification:" ;;;
       ret (json_response 500
              (JObj [ (str "error", JStr (str "Failed to send notification")) ]))).

End WithWorld.

End SendNotification.

(** ** What a run shows *)

Module Observe.
Import JS Runtime Effects.

(** Some event of the trace satisfies [p]. *)
Definition saw (p : Ev -> bool) (s : St) : bool := existsb p (trace s).

(** The requests of a run, in the order they were sent. *)
Definition requests (s : St) : list FetchInit :=
  omap (fun e => match e with
                 | EvFetch _ init => Some init
                 | _ => None
                 end) (trace s).

(** The form the store hands back for [formId], when it hands one
    back. *)
Definition form_of (w : World) (d : Store) (formId : JSVal) : option Form.t :=
  match (select_form w formId (start d)).2 with
  | inr (Some form) => Some form
  | _ => None
  end.

(** The enabled recipients the store hands back for [formId]: [None]
    when the call rejects, no recipient when it reports an error. *)
Definition recipients_of (w : World) (d : Store) (formId : JSVal)
    : option (list jsstring) :=
  match (select_enabled_emails w formId (start d)).2 with
  | inr (Some emails) => Some emails
  | inr None => Some []
  | inl _ => None
  end.

(** A run of each handler on a store, from the first tick. *)
Definition ingest (w : World) (d : Store) (event : Event) : St * (Exn + Response) :=
  Feedback.handler w event (start d).

Definition dispatch (w : World) (d : Store) (event : Event) : St * (Exn + Response) :=
  SendNotification.handler w event (start d).

(** The responses of the ingestion handler to [event]. *)
Definition accepted (w : World) (event : Event) : Response :=
  Feedback.success_response w (Feedback.getCorsHeaders (Feedback.declared_origin event)).

Definition refused (w : World) (event : Event) (code : N) (msg : string) : Response :=
  Feedback.error_response w code
    (Feedback.getCorsHeaders (Feedback.declared_origin event)) msg.

(** The verdict on a declared origin: a form is found and the origin
    test accepts its URL. *)
Definition origin_allowed (w : World) (d : Store) (formId origin : JSVal) : bool :=
  match form_of w d formId with
  | Some form => isValidOrigin w origin (JStr (Form.url form))
  | None => false
  end.

(** The promises of the requests [inits] to [url], issued at tick [t] as
    the requests number [n], [n + 1], ... of the run. *)
Fixpoint issued (w : World) (t n : nat) (url : jsstring) (inits : list FetchInit)
    : list Promise :=
  match inits with
  | [] => []
  | init :: rest =>
      {| settle_at := t + (network w n url init).1;
         outcome := (network w n url init).2 |} :: issued w t (S n) url rest
  end.

(** The property [k] of a body, [undefined] when it has none. *)
Definition field (body : JSVal) (k : string) : JSVal :=
  match get body (str k) with
  | inr v => v
  | inl _ => JUndefined
  end.

(** The requests of a dispatch to [emails], in order: one per
    recipient, built from the form and the payload. *)
Definition sends (w : World) (form : Form.t) (formId payload : JSVal)
    (emails : list jsstring) : list FetchInit :=
  List.map
    (SendNotification.email_init w form formId (field payload "message")
       (field payload "userName") (field payload "userEmail")) emails.

(** A submission the field check of the ingestion handler lets
    through: [formId] is there and truthy, [message] is a string that
    is not blank once trimmed. *)
Definition valid_fields (body formId : JSVal) (message : jsstring) : Prop :=
  get body (str "formId") = inr formId /\ truthy formId = true /\
  get body (str "message") = inr (JStr message) /\ trim message <> [].

(** A stored column is populated from the body: the fallback when the
    field is absent, the field itself when it is given (and truthy). *)
Definition populated (given fallback stored : JSVal) : Prop :=
  (given = JUndefined -> stored = fallback) /\
  (truthy given = true -> stored = given).

(** The state once [ev] is on the trace. *)
Definition logged (s : St) (ev : Ev) : St :=
  {| db := db s; now := now s; trace := trace s ++ [ev]; inflight := inflight s |}.

(** ** Reasoning about runs

    [post c s Q]: the run of [c] from [s] ends in a state and a result
    (a value or an exception) that satisfy [Q]. *)

Definition post {A} (c : M A) (s : St) (Q : St -> Exn + A -> Prop) : Prop :=
  Q (c s).1 (c s).2.

End Observe.

(** ** Concrete worlds and requests

    A runtime small enough to run the handlers on the scenarios of the
    specification: a printer for the JSON values that occur (no number
    does), the parser that inverts it on a given set of values, string
    equality as the origin test, a store with the form [f1] registered at
    [https://example.com]. *)

Module Scenario.
Import JS Runtime Effects.

Definition quote (s : jsstring) : jsstring := [34%N] ++ s ++ [34%N].

Fixpoint print (v : JSVal) : jsstring :=
  match v with
  | JUndefined => str "undefined"
  | JNull => str "null"
  | JBool true => str "true"
  | JBool false => str "false"
  | JNum _ => str "0"
  | JStr s => quote s
  | JArr xs => str "[" ++ join (str ",") (List.map print xs) ++ str "]"
  | JObj fields =>
      str "{" ++
      join (str ",")
        ((fix members (fs : list (jsstring * JSVal)) : list jsstring :=
            match fs with
            | [] => []
            | (_, JUndefined) :: rest => members rest
            | (k, v) :: rest => (quote k ++ str ":" ++ print v) :: members rest
            end) fields) ++
      str "}"
  end.

(** The parser that knows the texts of [known] values. *)
Definition parse_among (known : list JSVal) (text : jsstring) : option JSVal :=
  List.find (fun v => bool_decide (print v = text)) known.

Definition same_origin (a b : JSVal) : bool :=
  match a, b with
  | JStr x, JStr y => bool_decide (x = y)
  | _, _ => false
  end.

Definition f1 : Form.t :=
  {| Form.id := str "f1"; Form.url := str "https://example.com" |}.

Definition recipient (address : string) (on : bool) : NotificationSetting.t :=
  {| NotificationSetting.form_id := str "f1";
     NotificationSetting.email := str address;
     NotificationSetting.enabled := on |}.

Definition store (settings : list NotificationSetting.t) : Store :=
  {| forms := [f1]; feedback := []; notification_settings := settings |}.

(** [{formId: "f1", message: "Broken button"}] *)
Definition broken_button : JSVal :=
  JObj [ (str "formId", JStr (str "f1"));
         (str "message", JStr (str "Broken button")) ].

(** [{formId: "f1", message: "   "}] *)
Definition blank_message : JSVal :=
  JObj [ (str "formId", JStr (str "f1")); (str "message", JStr (str "   ")) ].

(** The payload the ingestion handler sends to the notification
    endpoint for [broken_button], as it reads once printed (the undefined
    fields are left out). *)
Definition notified : JSVal :=
  JObj [ (str "formId", JStr (str "f1"));
         (str "message", JStr (str "Broken button"));
         (str "created_at", JStr (str "2024-01-01T00:00:00Z")) ].

Definition known_bodies : list JSVal :=
  [ JObj []; JNull; broken_button; blank_message; notified ].

(** A network in which every request is answered [200] after [latency]
    ticks, except the requests numbered in [down], which are rejected
    after one tick. *)
Definition network_with (latency : nat) (down : list nat)
    (n : nat) (_ : jsstring) (_ : FetchInit) : nat * FetchOutcome :=
  if bool_decide (n ∈ down) then (1, Rejects)
  else (latency, Responds 200 (Some (str "{}"))).

Definition world (insert : Mode) (returning : bool)
    (net : nat -> jsstring -> FetchInit -> nat * FetchOutcome) : World :=
  {| JSON_parse := parse_among known_bodies;
     JSON_stringify := print;
     Number_toString := fun _ => str "0";
     isValidOrigin := same_origin;
     env := {[ str "URL" := str "https://userbird.co" ]};
     forms_mode := Answers;
     settings_mode := Answers;
     insert_mode := insert;
     insert_returning := returning;
     timestamp := str "2024-01-01T00:00:00Z";
     network := net |}.

Definition post (origin : option string) (text : option jsstring) : Event :=
  {| httpMethod := str "POST";
     headers := match origin with
                | Some o => {[ str "origin" := str o ]}
                | None => ∅
                end;
     body := text |}.

Definition example_com : option string := Some "https://example.com"%string.
Definition evil_com : option string := Some "https://evil.com"%string.

(** The submission of the specification, from a given origin or none. *)
Definition submission (origin : option string) : Event :=
  post origin (Some (print broken_button)).

(** The same submission with a blank message. *)
Definition blank_submission (origin : option string) : Event :=
  post origin (Some (print blank_message)).

(** The request the notification endpoint receives for it. *)
Definition notification : Event := post None (Some (print notified)).

(** Three enabled recipients and a disabled one. *)
Definition four_settings : list NotificationSetting.t :=
  [ recipient "a@example.com" true; recipient "b@example.com" true;
    recipient "c@example.com" true; recipient "d@example.com" false ].

(** The event the notification endpoint receives for a request. *)
Definition event_of (init : FetchInit) : Event :=
  {| httpMethod := method init; headers := ∅; body := Some (req_body init) |}.

(** The network in which the notification endpoint is the dispatcher,
    running in the world [w'] on the store [d]: a request settles at the
    tick the run of the dispatcher on it ends, with its response. *)
Definition dispatcher_network (w' : World) (d : Store)
    (_ : nat) (_ : jsstring) (init : FetchInit) : nat * FetchOutcome :=
  let run := Observe.dispatch w' d (event_of init) in
  (now run.1,
   match run.2 with
   | inr response =>
       Responds (statusCode response)
         (match resp_body response with
          | JStr text => Some text
          | _ => None
          end)
   | inl _ => Rejects
   end).

(** The usual world: the store answers and hands inserted rows back,
    every request is answered after seven ticks. *)
Definition usual : World := world Answers true (network_with 7 []).

End Scenario.

(** ** What the runs show, further

    The responses and requests of the two handlers, named, for the
    properties that go beyond the specification. *)

Module Behaviour.
Import JS Runtime Effects Observe.

(** The answer to a preflight request: [{ statusCode: 204, headers }]. *)
Definition preflight (event : Event) : Response :=
  {| statusCode := 204;
     resp_headers := Feedback.getCorsHeaders (Feedback.declared_origin event);
     resp_body := JUndefined |}.

(** The six responses the ingestion handler builds. *)
Definition responses_of_ingest (w : World) (event : Event) : list Response :=
  [ preflight event;
    refused w event 405 "Method not allowed";
    refused w event 400 "Invalid request data";
    refused w event 403 "Origin not allowed";
    accepted w event;
    refused w event 500 "Internal server error" ].

(** The arguments of the calls of [insert], in order. *)
Definition stored_rows (s : St) : list (list FeedbackRecord.row) :=
  omap (fun e => match e with EvInsert rows => Some rows | _ => None end) (trace s).

Definition is_settings_lookup (e : Ev) : bool :=
  match e with EvSelectSettings _ => true | _ => false end.

(** [console.error(label, ...)] *)
Definition is_error_log (label : string) (e : Ev) : bool :=
  match e with
  | EvError l => bool_decide (l = str label)
  | _ => false
  end.

(** A request that was answered, with a status from 200 to 299 and a
    text that could be read. *)
Definition delivered (p : Promise) : bool :=
  match outcome p with
  | Responds st (Some _) => ((200 <=? st) && (st <=? 299))%N
  | _ => false
  end.

(** The two arguments of the [fetch] of the ingestion handler, for a
    submission with the body [body]. *)
Definition notification_url (w : World) : jsstring :=
  or_else (env w !! str "NOTIFICATION_URL") Feedback.default_notification_url.

Definition notification_init (w : World) (body : JSVal) : FetchInit :=
  {| method := str "POST";
     req_headers :=
       [ (str "Content-Type", JStr (str "application/json"));
         (str "Authorization",
          JStr (template w [ JStr (str "Bearer ");
                             process_env w "SUPABASE_SERVICE_ROLE_KEY" ])) ];
     req_body :=
       JSON_stringify w
         (JObj [ (str "formId", field body "formId");
                 (str "message", field body "message");
                 (str "userName", field body "user_name");
                 (str "userEmail", field body "user_email");
                 (str "operating_system", field body "operating_system");
                 (str "screen_category", field body "screen_category");
                 (str "image_url", field body "image_url");
                 (str "created_at", JStr (timestamp w)) ]) |}.

(** A stored column holds the fallback when the field is falsy: absent,
    [null], [false], [0], [NaN] or the empty string. *)
Definition defaulted (given fallback stored : JSVal) : Prop :=
  truthy given = false -> stored = fallback.

(** A parsed body whose fields cannot be read: [null]. *)
Definition unreadable (body : JSVal) : Prop :=
  get body (str "formId") = inl TypeError.

(** The responses the notification handler builds. *)
Definition method_not_allowed : Response :=
  {| statusCode := 405; resp_headers := JUndefined;
     resp_body := JStr (str "Method Not Allowed") |}.

Definition answer (w : World) (code : N) (key : string) (v : JSVal) : Response :=
  SendNotification.json_response w code (JObj [ (str key, v) ]).

Definition responses_of_dispatch (w : World) : list Response :=
  [ method_not_allowed;
    answer w 404 "error" (JStr (str "Form not found"));
    answer w 200 "message" (JStr (str "No notification settings found"));
    answer w 200 "success" (JBool true);
    answer w 500 "error" (JStr (str "Failed to send notification")) ].

End Behaviour.

(** ** More requests and bodies *)

Module Cases.
Import JS Runtime Effects Scenario.

(** [{formId: "f1", message: true}] *)
Definition flagged : JSVal :=
  JObj [ (str "formId", JStr (str "f1")); (str "message", JBool true) ].

(** [{formId: "f1", message: "  Broken button  ", operating_system: "",
      image_url: false, user_name: null}] *)
Definition padded : JSVal :=
  JObj [ (str "formId", JStr (str "f1"));
         (str "message", JStr (str "  Broken button  "));
         (str "operating_system", JStr []);
         (str "image_url", JBool false);
         (str "user_name", JNull) ].

(** [{formId: "f2", message: "Broken button"}], for a form that is not
    registered. *)
Definition stray : JSVal :=
  JObj [ (str "formId", JStr (str "f2"));
         (str "message", JStr (str "Broken button")) ].

(** The world [w] with a parser that also knows the texts of [known]. *)
Definition knowing (known : list JSVal) (w : World) : World :=
  {| JSON_parse := parse_among (known ++ known_bodies);
     JSON_stringify := JSON_stringify w;
     Number_toString := Number_toString w;
     isValidOrigin := isValidOrigin w;
     env := env w;
     forms_mode := forms_mode w;
     settings_mode := settings_mode w;
     insert_mode := insert_mode w;
     insert_returning := insert_returning w;
     timestamp := timestamp w;
     network := network w |}.

(** A request with the method [method] and no body, from
    [https://example.com]. *)
Definition request (method : string) : Event :=
  {| httpMethod := str method;
     headers := {[ str "origin" := str "https://example.com" ]};
     body := None |}.

End Cases.

(** ** The widget

    The script that follows the notification handler in
    [netlify/functions/send-notification/index.ts]: the feedback modal a
    page embeds.  [submitFeedback] and [init] run in the monad of the
    handlers, against the same network.  The handlers [init] attaches are
    functions on the elements of the modal; what the browser does between
    them (clicks, typing, timers, the settling of a submission) is a list
    of actions. *)

Module Widget.
Import JS Runtime Effects.
Local Open Scope js_scope.

Definition API_BASE_URL : jsstring := str "https://userbird.netlify.app".

Module MESSAGES.
Module labels.
Definition submit : jsstring := str "Send Feedback".
Definition submitting : jsstring := str "Sending Feedback...".
End labels.
End MESSAGES.

(** What [createModal] returns, as the handlers of [init] read and
    write it: the [open] and [hidden] classes, the value of the textarea
    and whether [focus] was called on it, the submit button and its label,
    the text and the inline [display] of the error element. *)
Record Elements : Type :=
  mkElements {
    modal_open : bool;
    backdrop_open : bool;
    form_hidden : bool;
    textarea_value : jsstring;
    textarea_focused : bool;
    submit_disabled : bool;
    submit_text : jsstring;
    error_text : jsstring;
    error_display : jsstring;
    success_open : bool
  }.

Definition createModal : Elements :=
  {| modal_open := false; backdrop_open := false; form_hidden := false;
     textarea_value := []; textarea_focused := false;
     submit_disabled := false; submit_text := MESSAGES.labels.submit;
     error_text := []; error_display := []; success_open := false |}.

(** What [init] leaves in the document: the style sheet, the modal, and
    whether the handlers are attached. *)
Record Installation : Type :=
  mkInstallation { style : jsstring; modal : Elements; listening : bool }.

Section WithWorld.
Variable w : World.
(** [window.location.origin] *)
Variable location_origin : jsstring.

(** [await response.json()] *)
Definition json (response : FetchResponse) : M JSVal :=
  t <- text response ;; parse w t.

Definition submitFeedback (formId message : JSVal) : M JSVal :=
  promise <- fetch w
    (template w [ JStr API_BASE_URL; JStr (str "/.netlify/functions/feedback") ])
    {| method := str "POST";
       req_headers :=
         [ (str "Content-Type", JStr (str "application/json"));
           (str "Origin", JStr location_origin) ];
       req_body :=
         JSON_stringify w
           (JObj [ (str "formId", formId); (str "message", message) ]) |} ;;
  response <- await promise ;;
  if negb (ok response) then throw (Error (str "Failed to submit feedback"))
  else json response.

(** [injectStyles(buttonColor)]: the style sheet, kept by the colour
    that is interpolated in it. *)
Definition injectStyles (buttonColor : JSVal) : jsstring :=
  template w [buttonColor].

(** [init(formId)], up to the handlers it attaches; [trigger] tells
    whether the document has the trigger button of the form. *)
Definition init (formId : JSVal) (trigger : bool) : M Installation :=
  promise <- fetch w
    (template w [ JStr API_BASE_URL;
                  JStr (str "/.netlify/functions/form-settings?id="); formId ])
    {| method := str "GET"; req_headers := []; req_body := [] |} ;;
  response <- await promise ;;
  settings <- json response ;;
  button_color <- lift (get settings (str "button_color")) ;;
  let buttonColor := or button_color (JStr (str "#1f2937")) in
  ret {| style := injectStyles buttonColor; modal := createModal;
         listening := trigger |}.

(** The request [submitFeedback] makes. *)
Definition feedback_request (formId message : JSVal) : Ev :=
  EvFetch (str "https://userbird.netlify.app/.netlify/functions/feedback")
    {| method := str "POST";
       req_headers :=
         [ (str "Content-Type", JStr (str "application/json"));
           (str "Origin", JStr location_origin) ];
       req_body :=
         JSON_stringify w
           (JObj [ (str "formId", formId); (str "message", message) ]) |}.

End WithWorld.

(** The page once [init] has attached its handlers: the elements, the
    resets [closeModal] has scheduled and that have not run yet, the calls
    of [submitFeedback] that have not settled yet, and the messages passed
    to [submitFeedback] so far. *)
Record Page : Type :=
  mkPage {
    elements : Elements;
    timers : nat;
    in_flight : nat;
    sent : list jsstring
  }.

Definition installed : Page :=
  {| elements := createModal; timers := 0; in_flight := 0; sent := [] |}.

(** The click handler of the trigger. *)
Definition trigger_click (el : Elements) : Elements :=
  {| modal_open := true; backdrop_open := true; form_hidden := form_hidden el;
     textarea_value := textarea_value el; textarea_focused := true;
     submit_disabled := submit_disabled el; submit_text := submit_text el;
     error_text := error_text el; error_display := error_display el;
     success_open := success_open el |}.

(** [closeModal], up to its [setTimeout]. *)
Definition closeModal (el : Elements) : Elements :=
  {| modal_open := false; backdrop_open := false; form_hidden := form_hidden el;
     textarea_value := textarea_value el; textarea_focused := textarea_focused el;
     submit_disabled := submit_disabled el; submit_text := submit_text el;
     error_text := error_text el; error_display := error_display el;
     success_open := success_open el |}.

(** The callback [closeModal] hands to [setTimeout]. *)
Definition closeModal_timeout (el : Elements) : Elements :=
  {| modal_open := modal_open el; backdrop_open := backdrop_open el;
     form_hidden := false;
     textarea_value := []; textarea_focused := textarea_focused el;
     submit_disabled := false; submit_text := MESSAGES.labels.submit;
     error_text := error_text el; error_display := error_display el;
     success_open := false |}.

(** The click handler of the submit button, up to its [await]: the
    elements, and the message it passes to [submitFeedback], if any. *)
Definition submit_click (el : Elements) : Elements * option jsstring :=
  let message := trim (textarea_value el) in
  if bool_decide (message = []) then (el, None)
  else
    ({| modal_open := modal_open el; backdrop_open := backdrop_open el;
        form_hidden := form_hidden el;
        textarea_value := textarea_value el; textarea_focused := textarea_focused el;
        submit_disabled := true; submit_text := MESSAGES.labels.submitting;
        error_text := error_text el; error_display := error_display el;
        success_open := success_open el |}, Some message).

(** The same handler from its [await] on: [submitFeedback] has
    fulfilled, or it has thrown. *)
Definition submit_settled (result : Exn + JSVal) (el : Elements) : Elements :=
  match result with
  | inr _ =>
      {| modal_open := modal_open el; backdrop_open := backdrop_open el;
         form_hidden := true;
         textarea_value := textarea_value el; textarea_focused := textarea_focused el;
         submit_disabled := submit_disabled el; submit_text := submit_text el;
         error_text := error_text el; error_display := error_display el;
         success_open := true |}
  | inl _ =>
      {| modal_open := modal_open el; backdrop_open := backdrop_open el;
         form_hidden := form_hidden el;
         textarea_value := textarea_value el; textarea_focused := textarea_focused el;
         submit_disabled := false; submit_text := MESSAGES.labels.submit;
         error_text := str "Failed to submit feedback"; error_display := str "block";
         success_open := success_open el |}
  end.

(** What happens to the page: the user clicks the trigger, a close
    button or the backdrop, or the submit button, or types in the
    textarea; a reset that [closeModal] scheduled runs; a call of
    [submitFeedback] settles. *)
Inductive Action : Type :=
| ClickTrigger
| ClickClose
| TimerFires
| Input (value : jsstring)
| ClickSubmit
| Settles (result : Exn + JSVal).

Definition step (a : Action) (p : Page) : Page :=
  match a with
  | ClickTrigger =>
      {| elements := trigger_click (elements p); timers := timers p;
         in_flight := in_flight p; sent := sent p |}
  | ClickClose =>
      {| elements := closeModal (elements p); timers := S (timers p);
         in_flight := in_flight p; sent := sent p |}
  | TimerFires =>
      match timers p with
      | S n =>
          {| elements := closeModal_timeout (elements p); timers := n;
             in_flight := in_flight p; sent := sent p |}
      | 0 => p
      end
  | Input value =>
      {| elements :=
           {| modal_open := modal_open (elements p);
              backdrop_open := backdrop_open (elements p);
              form_hidden := form_hidden (elements p);
              textarea_value := value;
              textarea_focused := textarea_focused (elements p);
              submit_disabled := submit_disabled (elements p);
              submit_text := submit_text (elements p);
              error_text := error_text (elements p);
              error_display := error_display (elements p);
              success_open := success_open (elements p) |};
         timers := timers p; in_flight := in_flight p; sent := sent p |}
  | ClickSubmit =>
      (* a disabled button dispatches no click *)
      if submit_disabled (elements p) then p
      else
        match submit_click (elements p) with
        | (el, Some message) =>
            {| elements := el; timers := timers p;
               in_flight := S (in_flight p); sent := sent p ++ [message] |}
        | (el, None) =>
            {| elements := el; timers := timers p;
               in_flight := in_flight p; sent := sent p |}
        end
  | Settles result =>
      match in_flight p with
      | S n =>
          {| elements := submit_settled result (elements p); timers := timers p;
             in_flight := n; sent := sent p |}
      | 0 => p
      end
  end.

Definition run (actions : list Action) (p : Page) : Page :=
  fold_left (fun p a => step a p) actions p.

(** The label that goes with the state of the submit button. *)
Definition label_of (disabled : bool) : jsstring :=
  if disabled then MESSAGES.labels.submitting else MESSAGES.labels.submit.

End Widget.

(** * Proofs

    ** The rules of [post] *)

Import JS Runtime Effects Observe.

Section Rules.
Context {A B : Type}.
Implicit Types (s : St) (e : Exn).

Lemma post_ret (a : A) s Q : Q s (inr a) -> post (ret a) s Q.
Proof. done. Qed.

Lemma post_throw e s (Q : St -> Exn + A -> Prop) : Q s (inl e) -> post (throw e) s Q.
Proof. done. Qed.

Lemma post_lift (r : Exn + A) s Q : Q s r -> post (lift r) s Q.
Proof. done. Qed.

Lemma post_bind (c : M A) (k : A -> M B) s Q :
  post c s (fun s' r => match r with
                        | inr a => post (k a) s' Q
                        | inl e => Q s' (inl e)
                        end) ->
  post (bind c k) s Q.
Proof. unfold post, bind. by destruct (c s) as [s' [e|a]]. Qed.

Lemma post_try (c : M A) (h : Exn -> M A) s Q :
  post c s (fun s' r => match r with
                        | inl e => post (h e) s' Q
                        | inr a => Q s' (inr a)
                        end) ->
  post (try_catch c h) s Q.
Proof. unfold post, try_catch. by destruct (c s) as [s' [e|a]]. Qed.

End Rules.

Lemma post_emit ev s Q : Q (logged s ev) (inr tt) -> post (emit ev) s Q.
Proof. done. Qed.

Lemma post_get_db s Q : Q s (inr (db s)) -> post get_db s Q.
Proof. done. Qed.

Lemma post_set_db d s Q :
  Q {| db := d; now := now s; trace := trace s; inflight := inflight s |} (inr tt) ->
  post (set_db d) s Q.
Proof. done. Qed.

Lemma post_wait_until t s Q :
  Q {| db := db s; now := Nat.max (now s) t; trace := trace s;
       inflight := inflight s |} (inr tt) ->
  post (wait_until t) s Q.
Proof. done. Qed.

Lemma post_fetch w url init s Q :
  Q {| db := db s; now := now s; trace := trace s ++ [EvFetch url init];
       inflight := inflight s ++ issued w (now s) (length (inflight s)) url [init] |}
    (inr {| settle_at := now s + (network w (length (inflight s)) url init).1;
            outcome := (network w (length (inflight s)) url init).2 |}) ->
  post (fetch w url init) s Q.
Proof. done. Qed.

Lemma form_of_db w s formId :
  form_of w (db s) formId =
    match forms_mode w with
    | Answers => single (List.filter (fun f => eq_filter w (Form.id f) formId) (forms (db s)))
    | _ => None
    end.
Proof.
  unfold form_of, select_form, bind, emit, get_db, ret, throw.
  destruct (forms_mode w); simpl; try done. by case_match.
Qed.

Lemma post_select_form w formId s Q :
  (forms_mode w = Throws -> Q (logged s (EvSelectForm formId)) (inl StoreError)) ->
  (forms_mode w <> Throws ->
   Q (logged s (EvSelectForm formId)) (inr (form_of w (db s) formId))) ->
  post (select_form w formId) s Q.
Proof.
  intros H1 H2. rewrite form_of_db in H2. revert H1 H2.
  unfold post, select_form, bind, emit, get_db, ret, throw.
  destruct (forms_mode w); simpl; auto.
Qed.

Lemma post_validateFormId w formId origin s Q :
  Q (logged s (EvSelectForm formId)) (inr (origin_allowed w (db s) formId origin)) ->
  post (Feedback.validateFormId w formId origin) s Q.
Proof.
  intros H. unfold Feedback.validateFormId, origin_allowed in *.
  apply post_try, post_bind, post_select_form; intros Hm; cbn beta iota.
  - apply post_ret. rewrite form_of_db, Hm in H. done.
  - destruct (form_of w (db s) formId); by apply post_ret.
Qed.

Lemma recipients_of_db w s formId :
  recipients_of w (db s) formId =
    match settings_mode w with
    | Answers =>
        Some (List.map NotificationSetting.email
                (List.filter
                   (fun n => eq_filter w (NotificationSetting.form_id n) formId
                             && NotificationSetting.enabled n)
                   (notification_settings (db s))))
    | Fails => Some []
    | Throws => None
    end.
Proof.
  unfold recipients_of, select_enabled_emails, bind, emit, get_db, ret, throw.
  by destruct (settings_mode w).
Qed.

Lemma post_select_enabled_emails w formId s Q :
  (recipients_of w (db s) formId = None ->
   Q (logged s (EvSelectSettings formId)) (inl StoreError)) ->
  (forall data, recipients_of w (db s) formId = Some (default [] data) ->
   Q (logged s (EvSelectSettings formId)) (inr data)) ->
  post (select_enabled_emails w formId) s Q.
Proof.
  rewrite recipients_of_db. intros H1 H2. revert H1 H2.
  unfold post, select_enabled_emails, bind, emit, get_db, ret, throw.
  destruct (settings_mode w); simpl; intros H1 H2; auto.
Qed.

Lemma post_select_form_found w formId form s Q :
  form_of w (db s) formId = Some form ->
  Q (logged s (EvSelectForm formId)) (inr (Some form)) ->
  post (select_form w formId) s Q.
Proof.
  intros Hf H. apply post_select_form; intros Hm; [|by rewrite Hf].
  rewrite form_of_db, Hm in Hf. done.
Qed.

Lemma post_select_enabled_emails_known w formId emails s Q :
  recipients_of w (db s) formId = Some emails ->
  (forall data, default [] data = emails ->
   Q (logged s (EvSelectSettings formId)) (inr data)) ->
  post (select_enabled_emails w formId) s Q.
Proof.
  intros Hr H. apply post_select_enabled_emails; rewrite Hr; [done|].
  intros data [=]. by apply H.
Qed.

Lemma post_mapM_send_email w form formId message userName userEmail emails s Q :
  let inits := List.map (SendNotification.email_init w form formId message userName userEmail) emails in
  let ps := issued w (now s) (length (inflight s)) (SendNotification.email_url w) inits in
  Q {| db := db s; now := now s;
       trace := trace s ++
         flat_map (fun init => [EvLog (str "Sending email to:");
                                EvFetch (SendNotification.email_url w) init]) inits;
       inflight := inflight s ++ ps |} (inr ps) ->
  post (mapM (SendNotification.send_email w form formId message userName userEmail) emails) s Q.
Proof.
  revert s Q. induction emails as [|email emails IH]; intros s Q; cbn zeta.
  - simpl. rewrite !app_nil_r. by destruct s.
  - intros H. cbn [mapM]. apply post_bind. unfold SendNotification.send_email at 1.
    apply post_bind, post_emit. cbn beta iota. apply post_fetch. cbn beta iota.
    apply post_bind, IH. cbn beta iota zeta. apply post_ret.
    cbn [db now trace inflight logged length]. rewrite length_app. cbn [length].
    rewrite Nat.add_1_r. cbn [issued] in *. 
    rewrite <- !app_assoc. cbn [List.map flat_map] in H. cbn [app] in *. exact H.
Qed.

(** ** Basic facts about the values *)

Lemma get_defined body k v :
  get body k = inr v -> forall k', get body (str k') = inr (field body k').
Proof. unfold field. by destruct body. Qed.

Lemma field_get body k v : get body (str k) = inr v -> field body k = v.
Proof. unfold field. by intros ->. Qed.

Lemma trimStart_blank s : trimStart s = [] <-> forallb is_white_space s = true.
Proof.
  induction s as [|c s IH]; simpl; [done|].
  destruct (is_white_space c); simpl; [done|]. split; discriminate.
Qed.

(** A string trims to the empty string exactly when all its code units
    are white space. *)
Lemma trim_blank s : trim s = [] <-> forallb is_white_space s = true.
Proof.
  unfold trim, trimEnd. rewrite <- trimStart_blank. split.
  - intros H. apply (f_equal (@rev N)) in H. rewrite rev_involutive in H.
    simpl in H. apply trimStart_blank in H. rewrite forallb_forall in H.
    destruct (trimStart s) as [|c t] eqn:E; [done|].
    assert (Hs : forallb is_white_space (trimStart s) = true).
    { rewrite forallb_forall. intros x Hx. apply H. rewrite <- in_rev.
      by rewrite <- E. }
    clear H. exfalso. revert Hs. rewrite E. clear -E.
    induction s as [|a s IH]; simpl in E; [done|].
    destruct (is_white_space a) eqn:Ha; [by apply IH|].
    simplify_eq. simpl. by rewrite Ha.
  - by intros ->.
Qed.

Lemma post_is_not_options event :
  httpMethod event = str "POST" ->
  bool_decide (httpMethod event = str "OPTIONS") = false.
Proof. by intros ->. Qed.

Lemma post_is_post event :
  httpMethod event = str "POST" ->
  bool_decide (httpMethod event = str "POST") = true.
Proof. by intros ->. Qed.

(** ** Running a handler step by step *)

(** The goal, a property of the final state and result of a run, as a
    [post]. *)
Ltac wp_start :=
  match goal with
  | |- context [?c ?s] =>
      lazymatch type of c with
      | M _ => idtac
      end;
      pattern ((c s).1), ((c s).2);
      lazymatch goal with |- ?Q _ _ => change (post c s Q) end
  end.

(** A case analysis on [x], decided by a hypothesis when one tells. *)
Ltac case_on x :=
  lazymatch x with
  | negb ?y => case_on y
  | get ?b (str ?k) =>
      first
        [ match goal with H : x = _ |- _ => rewrite H end
        | match goal with H : get b _ = inr _ |- _ =>
            rewrite (get_defined b _ _ H k)
          end
        | destruct x eqn:? ]
  | _ =>
      first
        [ match goal with H : x = _ |- _ => rewrite H end
        | destruct x eqn:? ]
  end.

Ltac wp_step :=
  lazymatch goal with
  | |- post (bind _ _) _ _ => apply post_bind
  | |- post (try_catch _ _) _ _ => apply post_try
  | |- post (ret _) _ _ => apply post_ret
  | |- post (throw _) _ _ => apply post_throw
  | |- post (lift _) _ _ => apply post_lift
  | |- post (emit _) _ _ => apply post_emit
  | |- post get_db _ _ => apply post_get_db
  | |- post (set_db _) _ _ => apply post_set_db
  | |- post (wait_until _) _ _ => apply post_wait_until
  | |- post (fetch _ _ _) _ _ => apply post_fetch
  | |- post (Feedback.validateFormId _ _ _) _ _ => apply post_validateFormId
  | |- post (select_form _ _) _ _ => apply post_select_form; intros ?
  | |- post (select_enabled_emails _ _) _ _ =>
      apply post_select_enabled_emails; [intros ? | intros ? ?]
  | |- post (mapM (SendNotification.send_email _ _ _ _ _ _) _) _ _ =>
      apply post_mapM_send_email
  | |- post (console_log _) _ _ => unfold console_log
  | |- post (console_error _) _ _ => unfold console_error
  | |- post (parse _ _) _ _ => unfold parse
  | |- post (insert_feedback _ _) _ _ => unfold insert_feedback
  | |- post (await _) _ _ => unfold await
  | |- post (text _) _ _ => unfold text
  | |- post (Promise_all _) _ _ => unfold Promise_all
  | |- post (let _ := _ in _) _ _ => cbv zeta
  | |- post (match (if ?b then _ else _) with _ => _ end) _ _ => case_on b
  | |- post (if ?b then _ else _) _ _ => case_on b
  | |- post (match ?x with _ => _ end) _ _ => case_on x
  | |- match ?x with _ => _ end => case_on x
  end;
  cbn beta iota zeta fix
    delta [db now trace inflight logged start error data settle_at outcome
           FeedbackRecord.created_at List.map negb optional_trim truthy];
  simplify_eq.

(** A store call whose answer a hypothesis gives. *)
Ltac wp_known :=
  lazymatch goal with
  | |- post (select_form ?w ?formId) _ _ =>
      match goal with
      | H : form_of w _ formId = Some _ |- _ =>
          eapply post_select_form_found; [exact H|]
      end
  | |- post (select_enabled_emails ?w ?formId) _ _ =>
      match goal with
      | H : recipients_of w _ formId = Some _ |- _ =>
          eapply post_select_enabled_emails_known; [exact H|];
          let data := fresh "data" in
          let Hdata := fresh "Hdata" in
          intros data Hdata; destruct data as [[|]|]; simpl in Hdata;
          simplify_eq
      end
  end;
  cbn beta iota zeta delta [db now trace inflight logged start].

Ltac wp := repeat first [wp_known | wp_step].

(** ** Neither handler lets an exception out *)

Lemma ingest_never_raises w d event :
  exists response, (ingest w d event).2 = inr response.
Proof. unfold ingest. wp_start. unfold Feedback.handler. wp; eauto. Qed.

Lemma dispatch_never_raises w d event :
  exists response, (dispatch w d event).2 = inr response.
Proof. unfold dispatch. wp_start. unfold SendNotification.handler. wp; eauto. Qed.

(** ** The ingestion handler *)

Lemma valid_fields_trim body formId message :
  valid_fields body formId message -> bool_decide (trim message = []) = false.
Proof. intros (_ & _ & _ & H). by apply bool_decide_eq_false_2. Qed.

Lemma origin_refused w d formId origin :
  form_of w d formId = None \/
    (exists form, form_of w d formId = Some form /\
                  isValidOrigin w origin (JStr (Form.url form)) = false) ->
  origin_allowed w d formId origin = false.
Proof. unfold origin_allowed. by intros [->|(form & -> & ->)]. Qed.

Lemma populated_or v fallback : populated v fallback (or v fallback).
Proof. unfold populated, or. split; by intros ->. Qed.

(** When the handler returns, every request it issued has settled: the
    notification request is awaited, it is not left running behind the
    response. *)
Lemma ingest_leaves_no_request_pending w d event :
  pending (ingest w d event).1 = [].
Proof.
  unfold ingest. wp_start. unfold Feedback.handler.
  wp; try done.
  all: unfold pending; simpl.
  all: by rewrite ?Nat.ltb_irrefl.
Qed.

(** C2.  Once the handler has called [insert] and the store has accepted
    the row (so the request had passed the field and origin checks), the
    response is 200 with the body [{success: true}], whatever the network
    does with the notification request: rejected, answered with an error
    status, answered with a body that cannot be read, or answered well. *)
Theorem C2_notification_outcome_never_surfaces w d event :
  saw is_insert (ingest w d event).1 = true ->
  insert_mode w = Answers ->
  (ingest w d event).2 = inr (accepted w event).
Proof.
  intros Hi Hm. revert Hi. unfold ingest, saw. wp_start.
  unfold Feedback.handler. wp; done.
Qed.

(** C9.  Once the store has accepted the insert, the notification
    request is made exactly when the store also handed the inserted rows
    back; without them no request is made, and either way the response is
    200 with [{success: true}]. *)
Theorem C9_notification_needs_row_data w d event :
  saw is_insert (ingest w d event).1 = true ->
  insert_mode w = Answers ->
  saw is_fetch (ingest w d event).1 = insert_returning w /\
  (ingest w d event).2 = inr (accepted w event).
Proof.
  intros Hi Hm. revert Hi. unfold ingest, saw. wp_start.
  unfold Feedback.handler. destruct (insert_returning w) eqn:Hr.
  all: wp; done.
Qed.

(** C6, as amended.  A POST whose body parses to a value whose fields
    can be read (any JSON value but [null]), with [formId] absent or
    otherwise falsy, or [message] absent, [null] or blank once trimmed,
    is answered 400 [{error: "Invalid request data"}], and the store is
    neither read nor written. *)
Theorem C6_invalid_fields w d event body formId message :
  httpMethod event = str "POST" ->
  JSON_parse w (Feedback.body_or_empty event) = Some body ->
  get body (str "formId") = inr formId ->
  get body (str "message") = inr message ->
  truthy formId = false \/ message = JUndefined \/ message = JNull \/
    (exists text, message = JStr text /\ trim text = []) ->
  (ingest w d event).2 = inr (refused w event 400 "Invalid request data") /\
  saw is_store_access (ingest w d event).1 = false /\
  db (ingest w d event).1 = d.
Proof.
  intros Hm Hb Hf Hmsg Hbad.
  pose proof (post_is_not_options _ Hm). pose proof (post_is_post _ Hm).
  unfold ingest, saw. wp_start. unfold Feedback.handler.
  destruct Hbad as [Hbad|[->|[->|(text & -> & Hbad)]]].
  all: try (assert (bool_decide (trim text = []) = true)
              by by apply bool_decide_eq_true_2).
  all: wp; done.
Qed.

(** C10, as amended.  A POST with a body that is not empty and that
    [JSON.parse] rejects is answered 500
    [{error: "Internal server error"}], and the store is neither read nor
    written. *)
Theorem C10_unparseable_body w d event text :
  httpMethod event = str "POST" ->
  body event = Some text ->
  text <> [] ->
  JSON_parse w text = None ->
  (ingest w d event).2 = inr (refused w event 500 "Internal server error") /\
  saw is_store_access (ingest w d event).1 = false /\
  db (ingest w d event).1 = d.
Proof.
  intros Hm Hb Ht Hp.
  pose proof (post_is_not_options _ Hm). pose proof (post_is_post _ Hm).
  assert (JSON_parse w (Feedback.body_or_empty event) = None).
  { unfold Feedback.body_or_empty, or_else. rewrite Hb. by destruct text. }
  unfold ingest, saw. wp_start. unfold Feedback.handler.
  wp; done.
Qed.

(** C4, as amended.  A POST that declares an origin and whose body
    passes the field check ([formId] truthy, [message] a string that is
    not blank) is answered 403 [{error: "Origin not allowed"}] when the
    store hands back no form for [formId], or hands back a form whose URL
    the origin test rejects; [insert] is not called and the feedback table
    is unchanged. *)
Theorem C4_forbidden_origin w d event body formId message :
  httpMethod event = str "POST" ->
  truthy (Feedback.declared_origin event) = true ->
  JSON_parse w (Feedback.body_or_empty event) = Some body ->
  valid_fields body formId message ->
  form_of w d formId = None \/
    (exists form, form_of w d formId = Some form /\
                  isValidOrigin w (Feedback.declared_origin event)
                    (JStr (Form.url form)) = false) ->
  (ingest w d event).2 = inr (refused w event 403 "Origin not allowed") /\
  saw is_insert (ingest w d event).1 = false /\
  feedback (db (ingest w d event).1) = feedback d.
Proof.
  intros Hm Ho Hb Hv Hr. apply origin_refused in Hr.
  pose proof (post_is_not_options _ Hm). pose proof (post_is_post _ Hm).
  pose proof (valid_fields_trim _ _ _ Hv). destruct Hv as (Hf & Ht & Hmsg & _).
  unfold ingest, saw. wp_start. unfold Feedback.handler.
  wp; done.
Qed.

(** C5, as amended.  A POST whose body passes the field check, whose
    declared origin the origin test accepts for the URL of the form the
    store hands back, and whose insert the store accepts, is answered 200
    [{success: true}], and exactly one record is added to the feedback
    table: it carries that [formId] and the message, ["Unknown"] for an
    absent [operating_system] or [screen_category], [null] for every other
    absent optional field, and the given value of a field that is given
    (and truthy). *)
Theorem C5_accepted_submission w d event body formId message form :
  httpMethod event = str "POST" ->
  JSON_parse w (Feedback.body_or_empty event) = Some body ->
  valid_fields body formId message ->
  truthy (Feedback.declared_origin event) = true ->
  form_of w d formId = Some form ->
  isValidOrigin w (Feedback.declared_origin event) (JStr (Form.url form)) = true ->
  insert_mode w = Answers ->
  (ingest w d event).2 = inr (accepted w event) /\
  exists record,
    feedback (db (ingest w d event).1) = feedback d ++ [record] /\
    FeedbackRecord.form_id (FeedbackRecord.fields record) = formId /\
    FeedbackRecord.message (FeedbackRecord.fields record) = JStr message /\
    populated (field body "operating_system") (JStr (str "Unknown"))
      (FeedbackRecord.operating_system (FeedbackRecord.fields record)) /\
    populated (field body "screen_category") (JStr (str "Unknown"))
      (FeedbackRecord.screen_category (FeedbackRecord.fields record)) /\
    populated (field body "image_url") JNull
      (FeedbackRecord.image_url (FeedbackRecord.fields record)) /\
    populated (field body "image_name") JNull
      (FeedbackRecord.image_name (FeedbackRecord.fields record)) /\
    populated (field body "image_size") JNull
      (FeedbackRecord.image_size (FeedbackRecord.fields record)) /\
    populated (field body "user_id") JNull
      (FeedbackRecord.user_id (FeedbackRecord.fields record)) /\
    populated (field body "user_email") JNull
      (FeedbackRecord.user_email (FeedbackRecord.fields record)) /\
    populated (field body "user_name") JNull
      (FeedbackRecord.user_name (FeedbackRecord.fields record)).
Proof.
  intros Hm Hb Hv Ho Hform Hok Hi.
  assert (origin_allowed w d formId (Feedback.declared_origin event) = true)
    by (unfold origin_allowed; by rewrite Hform).
  pose proof (post_is_not_options _ Hm). pose proof (post_is_post _ Hm).
  pose proof (valid_fields_trim _ _ _ Hv). destruct Hv as (Hf & Ht & Hmsg & _).
  pose proof populated_or as Hp.
  unfold ingest. wp_start. unfold Feedback.handler.
  wp. all: (split; [done|]); eexists; (split; [reflexivity|]); simpl; auto 20.
Qed.

(** C7.  A POST that declares no origin never looks the form up; and
    when its body passes the field check, the first thing the handler does
    with the outside is the insert of one row with that [formId] and
    message, which is stored when the store accepts it. *)
Theorem C7_no_origin_skips_validation w d event :
  httpMethod event = str "POST" ->
  truthy (Feedback.declared_origin event) = false ->
  saw is_form_lookup (ingest w d event).1 = false /\
  forall body formId message,
    JSON_parse w (Feedback.body_or_empty event) = Some body ->
    valid_fields body formId message ->
    exists row rest,
      trace (ingest w d event).1 = EvInsert [row] :: rest /\
      FeedbackRecord.form_id row = formId /\
      FeedbackRecord.message row = JStr message /\
      (insert_mode w = Answers ->
       feedback (db (ingest w d event).1) =
         feedback d ++ [FeedbackRecord.mk row (timestamp w)]).
Proof.
  intros Hm Ho.
  pose proof (post_is_not_options _ Hm). pose proof (post_is_post _ Hm).
  split.
  - unfold ingest, saw. wp_start. unfold Feedback.handler. wp; done.
  - intros body formId message Hb Hv.
    pose proof (valid_fields_trim _ _ _ Hv). destruct Hv as (Hf & Ht & Hmsg & _).
    unfold ingest. wp_start. unfold Feedback.handler.
    wp. all: do 2 eexists; (split; [reflexivity|]); simpl; by repeat split.
Qed.

(** ** The notification handler *)

Lemma filter_sends url inits :
  List.filter is_fetch
    (flat_map (fun init => [EvLog (str "Sending email to:"); EvFetch url init]) inits)
  = List.map (EvFetch url) inits.
Proof. induction inits as [|init inits IH]; simpl; by rewrite ?IH. Qed.

Lemma last_settled_ge ps p : In p ps -> settle_at p <= last_settled ps.
Proof.
  unfold last_settled. induction ps as [|q ps IH]; simpl; [done|].
  intros [->|H]; [lia|]. specialize (IH H). lia.
Qed.

Lemma none_pending_after t ps :
  List.filter (fun p => Nat.max t (last_settled ps) <? settle_at p) ps = [].
Proof.
  assert (forall n, (forall p, In p ps -> settle_at p <= n) ->
                    List.filter (fun p => n <? settle_at p) ps = []) as H.
  { intros n. induction ps as [|q ps IH]; simpl; [done|]. intros Hle.
    destruct (Nat.ltb_spec n (settle_at q)) as [Hlt|_].
    - specialize (Hle q (or_introl eq_refl)). lia.
    - apply IH. intros p Hp. apply Hle. by right. }
  apply H. intros p Hp. pose proof (last_settled_ge _ _ Hp). lia.
Qed.

(** C8.  A dispatch (a POST whose payload gives a [formId]) for which
    the store hands back the form and no enabled recipient is answered 200
    with the message "No notification settings found", and no request is
    sent. *)
Theorem C8_no_recipients w d event payload formId form :
  httpMethod event = str "POST" ->
  JSON_parse w (SendNotification.body_or_empty event) = Some payload ->
  get payload (str "formId") = inr formId ->
  form_of w d formId = Some form ->
  recipients_of w d formId = Some [] ->
  (dispatch w d event).2 =
    inr (SendNotification.json_response w 200
           (JObj [ (str "message", JStr (str "No notification settings found")) ])) /\
  saw is_fetch (dispatch w d event).1 = false.
Proof.
  intros Hm Hb Hf Hform Hrec. pose proof (post_is_post _ Hm).
  unfold dispatch, saw. wp_start. unfold SendNotification.handler.
  wp; done.
Qed.

(** C3, as amended.  In a dispatch to one or more enabled recipients,
    the requests of all the recipients are issued, one each and in order,
    before any is waited for, so that no outcome of one keeps another from
    being sent; and the handler returns a response, it raises nothing.
    The wait itself stops at the first failure: when some request is
    rejected the handler answers 500 at the tick the first rejection
    settles, without waiting for the others; when none is rejected it
    answers 200 once all have settled. *)
Theorem C3_fan_out_attempts_all_and_fails_fast w d event payload formId form emails :
  httpMethod event = str "POST" ->
  JSON_parse w (SendNotification.body_or_empty event) = Some payload ->
  get payload (str "formId") = inr formId ->
  form_of w d formId = Some form ->
  recipients_of w d formId = Some emails ->
  emails <> [] ->
  List.filter is_fetch (trace (dispatch w d event).1) =
    List.map (EvFetch (SendNotification.email_url w))
      (sends w form formId payload emails) /\
  inflight (dispatch w d event).1 =
    issued w 0 0 (SendNotification.email_url w) (sends w form formId payload emails) /\
  exists response,
    (dispatch w d event).2 = inr response /\
    match first_rejection (inflight (dispatch w d event).1) with
    | Some p =>
        response = SendNotification.json_response w 500
                     (JObj [ (str "error", JStr (str "Failed to send notification")) ]) /\
        now (dispatch w d event).1 = settle_at p
    | None =>
        response = SendNotification.json_response w 200
                     (JObj [ (str "success", JBool true) ]) /\
        pending (dispatch w d event).1 = []
    end.
Proof.
  intros Hm Hb Hf Hform Hrec Hne. pose proof (post_is_post _ Hm).
  unfold dispatch. wp_start. unfold SendNotification.handler.
  wp; try done.
  all: unfold sends; cbn [app length List.map List.filter is_fetch] in *.
  all: rewrite List.filter_app, filter_sends; cbn [List.filter is_fetch app].
  all: rewrite ?app_nil_r.
  all: (split; [done|]); (split; [done|]); eexists; (split; [done|]).
  all: match goal with H : first_rejection _ = _ |- _ => rewrite H end.
  all: split; [done|].
  - by rewrite Nat.max_0_l.
  - unfold pending. cbn [now inflight logged]. apply none_pending_after.
Qed.

(** ** The ingestion handler, further *)

Section IngestionFurther.
Import Behaviour.

Lemma passes_field_check body formId trimmed :
  get body (str "formId") = inr formId ->
  truthy formId = true ->
  optional_trim (field body "message") = inr trimmed ->
  truthy trimmed = true ->
  exists message, valid_fields body formId message.
Proof.
  intros Hf Ht Hm Hn. pose proof (get_defined _ _ _ Hf "message") as Hg.
  destruct (field body "message") as [| | | |message| |]; simplify_eq/=.
  exists message. repeat split; try done.
  apply negb_true_iff in Hn. by apply bool_decide_eq_false_1 in Hn.
Qed.

Lemma bool_decide_post event :
  bool_decide (httpMethod event = str "POST") = true -> httpMethod event = str "POST".
Proof. apply bool_decide_eq_true_1. Qed.

Lemma defaulted_or v fallback : defaulted v fallback (or v fallback).
Proof. unfold defaulted, or. by intros ->. Qed.

(** X1.  A preflight request (an [OPTIONS]) is answered 204 with the
    CORS headers and no body, whatever its body is; nothing is parsed,
    logged, read from the store or sent. *)
Theorem preflight_answers_204 w d event :
  httpMethod event = str "OPTIONS" ->
  ingest w d event = (start d, inr (preflight event)).
Proof.
  intros Hm. unfold ingest, Feedback.handler. by rewrite Hm.
Qed.

(** X2.  A request whose method is neither [OPTIONS] nor [POST] is
    answered 405 [{error: "Method not allowed"}]; its body is not parsed,
    and nothing is logged, read from the store or sent. *)
Theorem other_methods_answer_405 w d event :
  httpMethod event <> str "OPTIONS" ->
  httpMethod event <> str "POST" ->
  ingest w d event = (start d, inr (refused w event 405 "Method not allowed")).
Proof.
  intros H1 H2. unfold ingest, Feedback.handler.
  rewrite bool_decide_eq_false_2, (bool_decide_eq_false_2 _ H2); done.
Qed.

(** X3.  The ingestion handler answers every request with one of its
    six responses, and each of them, the errors included, carries the CORS
    headers, with [Access-Control-Allow-Origin] the declared origin, or
    [*] when none is declared. *)
Theorem ingest_responses_carry_cors_headers w d event :
  exists response,
    (ingest w d event).2 = inr response /\
    In response (responses_of_ingest w event) /\
    resp_headers response = Feedback.getCorsHeaders (Feedback.declared_origin event) /\
    get (resp_headers response) (str "Access-Control-Allow-Origin") =
      inr (or (Feedback.declared_origin event) (JStr (str "*"))).
Proof.
  unfold ingest. wp_start. unfold Feedback.handler.
  wp. all: eexists; (split; [reflexivity|]); split; [|split; reflexivity].
  all: unfold responses_of_ingest, preflight; simpl; auto 10.
Qed.

(** X4.  A run of the ingestion handler leaves the forms and the
    notification settings as they were, adds at most one record to the
    feedback table (the inserted row with the timestamp of the store),
    calls [insert] at most once and sends at most one request. *)
Theorem ingest_touches_the_store_at_most_once w d event :
  forms (db (ingest w d event).1) = forms d /\
  notification_settings (db (ingest w d event).1) = notification_settings d /\
  (feedback (db (ingest w d event).1) = feedback d \/
   exists row, feedback (db (ingest w d event).1) =
                 feedback d ++ [FeedbackRecord.mk row (timestamp w)]) /\
  length (stored_rows (ingest w d event).1) <= 1 /\
  length (requests (ingest w d event).1) <= 1.
Proof.
  unfold ingest, stored_rows, requests. wp_start. unfold Feedback.handler.
  wp. all: simpl; repeat split; eauto.
Qed.

(** X5.  [insert] is called only for a POST whose body parsed and
    passed the field check, and, when an origin is declared, only after the
    origin check allowed it for the form of that body. *)
Theorem insert_only_after_the_checks w d event :
  saw is_insert (ingest w d event).1 = true ->
  httpMethod event = str "POST" /\
  exists body formId message,
    JSON_parse w (Feedback.body_or_empty event) = Some body /\
    valid_fields body formId message /\
    (truthy (Feedback.declared_origin event) = true ->
     origin_allowed w d formId (Feedback.declared_origin event) = true).
Proof.
  intros Hi. revert Hi. unfold ingest, saw. wp_start. unfold Feedback.handler.
  wp; try done.
  all: intros _; (split; [by apply bool_decide_post|]).
  all: match goal with
       | Hf : get _ _ = inr _, Ht : truthy _ = true,
         Hm : optional_trim _ = inr _, Hn : truthy _ = true |- _ =>
           destruct (passes_field_check _ _ _ Hf Ht Hm Hn) as [message Hv]
       end.
  all: by do 3 eexists.
Qed.

(** X6.  [validateFormId] fails closed.  It looks the form up once and
    never throws; it answers [true] exactly when the store answers, exactly
    one form has that id, and the origin test accepts its URL.  A store
    that fails or rejects, no form, or several forms with the id all give
    [false]. *)
Theorem validateFormId_fails_closed w formId origin s :
  exists verdict,
    Feedback.validateFormId w formId origin s =
      (logged s (EvSelectForm formId), inr verdict) /\
    (verdict = true <->
       forms_mode w = Answers /\
       exists form,
         List.filter (fun f => eq_filter w (Form.id f) formId) (forms (db s)) = [form] /\
         isValidOrigin w origin (JStr (Form.url form)) = true).
Proof.
  unfold Feedback.validateFormId, select_form, try_catch, bind, emit, get_db, ret, throw.
  destruct (forms_mode w) eqn:Hm; simpl.
  - destruct (List.filter _ _) as [|form [|form' rest]] eqn:Hf; simpl.
    + eexists; split; [reflexivity|]. split; [done|]. by intros (_ & form & [=] & _).
    + eexists; split; [reflexivity|]. split.
      * intros Hv. split; [done|]. by exists form.
      * by intros (_ & form0 & [= <-] & ?).
    + eexists; split; [reflexivity|]. split; [done|]. by intros (_ & form0 & [=] & _).
  - eexists; split; [reflexivity|]. split; [done|]. by intros ([=] & _).
  - eexists; split; [reflexivity|]. split; [done|]. by intros ([=] & _).
Qed.

(** X7.  A POST whose [formId] is truthy and whose [message] is
    neither a string nor [null] nor absent (a number, a boolean, an array,
    an object) is answered 500 [{error: "Internal server error"}], not 400:
    [message?.trim()] throws.  The store is neither read nor written. *)
Theorem message_not_a_string_answers_500 w d event body formId message :
  httpMethod event = str "POST" ->
  JSON_parse w (Feedback.body_or_empty event) = Some body ->
  get body (str "formId") = inr formId ->
  truthy formId = true ->
  get body (str "message") = inr message ->
  optional_trim message = inl TypeError ->
  (ingest w d event).2 = inr (refused w event 500 "Internal server error") /\
  saw is_store_access (ingest w d event).1 = false /\
  db (ingest w d event).1 = d.
Proof.
  intros Hm Hb Hf Ht Hmsg Htrim.
  pose proof (post_is_not_options _ Hm). pose proof (post_is_post _ Hm).
  unfold ingest, saw. wp_start. unfold Feedback.handler.
  wp; done.
Qed.

(** X8.  When [insert] is called and the store does not accept the row
    (it reports an error, or the call rejects), the answer is 500
    [{error: "Internal server error"}], no notification request is sent
    and the store is unchanged. *)
Theorem refused_insert_answers_500 w d event :
  saw is_insert (ingest w d event).1 = true ->
  insert_mode w <> Answers ->
  (ingest w d event).2 = inr (refused w event 500 "Internal server error") /\
  saw is_fetch (ingest w d event).1 = false /\
  db (ingest w d event).1 = d.
Proof.
  intros Hi Hm. revert Hi. unfold ingest, saw. wp_start.
  unfold Feedback.handler. wp; try done. all: by destruct d.
Qed.

(** X9.  The ingestion handler answers 500 only to a POST, and only
    for one of four reasons: the body does not parse; it parses to [null],
    whose fields cannot be read; [formId] is truthy and [message?.trim()]
    throws; or [insert] was called and the store did not accept the row.
    Nothing the origin check or the notification request meets gives a
    500. *)
Theorem internal_error_has_a_cause w d event response :
  (ingest w d event).2 = inr response ->
  statusCode response = 500%N ->
  httpMethod event = str "POST" /\
  (JSON_parse w (Feedback.body_or_empty event) = None \/
   exists body,
     JSON_parse w (Feedback.body_or_empty event) = Some body /\
     (unreadable body \/
      (truthy (field body "formId") = true /\
       optional_trim (field body "message") = inl TypeError) \/
      (saw is_insert (ingest w d event).1 = true /\ insert_mode w <> Answers))).
Proof.
  revert response. unfold ingest, saw. wp_start. unfold Feedback.handler.
  wp. all: intros response [= <-] Hs; try discriminate Hs.
  all: (split; [by apply bool_decide_post|]).
  all: try (left; reflexivity).
  all: right; eexists; (split; [reflexivity|]).
  all: match goal with
       | H : get ?b _ = inl _ |- _ => left; unfold unreadable; by destruct b
       | Hf : get _ (str "formId") = inr _, H : optional_trim ?m = inl _ |- _ =>
           right; left; rewrite (field_get _ "formId"%string _ Hf);
           split; [done|]; by destruct m
       | |- _ => right; right; split; [|done]
       end.
  all: by rewrite !existsb_app, orb_true_iff; left; rewrite orb_true_iff; right.
Qed.

(** X10.  The one row handed to [insert] carries [formId] and [message]
    as the body gives them (the message is not trimmed), and the fallback
    for every optional field that is falsy, not only for one that is
    absent: ["Unknown"] for [operating_system] and [screen_category],
    [null] for the others. *)
Theorem falsy_fields_take_the_defaults w d event body :
  JSON_parse w (Feedback.body_or_empty event) = Some body ->
  saw is_insert (ingest w d event).1 = true ->
  exists row,
    stored_rows (ingest w d event).1 = [[row]] /\
    FeedbackRecord.form_id row = field body "formId" /\
    FeedbackRecord.message row = field body "message" /\
    defaulted (field body "operating_system") (JStr (str "Unknown"))
      (FeedbackRecord.operating_system row) /\
    defaulted (field body "screen_category") (JStr (str "Unknown"))
      (FeedbackRecord.screen_category row) /\
    defaulted (field body "image_url") JNull (FeedbackRecord.image_url row) /\
    defaulted (field body "image_name") JNull (FeedbackRecord.image_name row) /\
    defaulted (field body "image_size") JNull (FeedbackRecord.image_size row) /\
    defaulted (field body "user_id") JNull (FeedbackRecord.user_id row) /\
    defaulted (field body "user_email") JNull (FeedbackRecord.user_email row) /\
    defaulted (field body "user_name") JNull (FeedbackRecord.user_name row).
Proof.
  intros Hb Hi. revert Hi. pose proof defaulted_or as Hd.
  unfold ingest, saw, stored_rows. wp_start. unfold Feedback.handler.
  wp; try done.
  all: intros _; eexists; (split; [reflexivity|]); simpl.
  all: match goal with
       | H : get _ (str "formId") = inr _ |- _ =>
           rewrite (field_get _ "formId"%string _ H)
       end; auto 20.
Qed.

(** X11.  When the ingestion handler sends a request, it is the one
    notification request: a POST to [NOTIFICATION_URL], or to the
    userbird.co endpoint when that variable is unset or empty, with the
    fields of the body and the [created_at] of the stored row.  The handler
    returns its 200 at the tick that request settles, and it logs
    "Notification request failed:" exactly when the request was not
    answered with a status from 200 to 299 and a readable text. *)
Theorem notification_request_is_awaited_and_logged w d event body :
  JSON_parse w (Feedback.body_or_empty event) = Some body ->
  saw is_fetch (ingest w d event).1 = true ->
  List.filter is_fetch (trace (ingest w d event).1) =
    [EvFetch (notification_url w) (notification_init w body)] /\
  exists p,
    inflight (ingest w d event).1 = [p] /\
    now (ingest w d event).1 = settle_at p /\
    saw (is_error_log "Notification request failed:") (ingest w d event).1 =
      negb (delivered p) /\
    (ingest w d event).2 = inr (accepted w event).
Proof.
  intros Hb Hi. revert Hi.
  unfold ingest, saw. wp_start. unfold Feedback.handler.
  wp; try done.
  all: intros _; unfold notification_url, notification_init; simpl.
  all: match goal with
       | H : get _ (str "formId") = inr _ |- _ =>
           rewrite (field_get _ "formId"%string _ H)
       end.
  all: (split; [reflexivity|]); eexists; (split; [reflexivity|]).
  all: unfold delivered, Effects.ok in *; simpl in *.
  all: repeat match goal with H : (network _ _ _ _).2 = _ |- _ => rewrite H end.
  all: rewrite ?existsb_app; simpl.
  all: repeat match goal with H : _ = _ |- _ => rewrite H end.
  all: done.
Qed.

End IngestionFurther.

(** ** The notification handler, further *)

Section DispatchFurther.
Import Behaviour.

Lemma sends_are_fetches (p : Ev -> bool) url inits :
  p (EvLog (str "Sending email to:")) = false ->
  (forall init, p (EvFetch url init) = false) ->
  existsb p
    (flat_map (fun init => [EvLog (str "Sending email to:"); EvFetch url init]) inits)
  = false.
Proof.
  intros H1 H2. induction inits as [|init inits IH]; simpl; [done|].
  by rewrite H1, H2, IH.
Qed.

Lemma in_sends url url' init inits :
  In (EvFetch url init)
    (flat_map (fun init => [EvLog (str "Sending email to:"); EvFetch url' init]) inits) ->
  url = url' /\ In init inits.
Proof.
  intros Hin. apply in_flat_map in Hin as (init' & Hin & [?|[[= <- <-]|[]]]); done.
Qed.

Lemma first_rejection_rejected ps p :
  first_rejection ps = Some p -> existsb rejected ps = true.
Proof.
  revert p. induction ps as [|q ps IH]; simpl; [done|]. intros p.
  destruct (rejected q); [done|]. simpl. apply IH.
Qed.

Lemma form_of_In w d formId form :
  form_of w d formId = Some form ->
  In form (forms d) /\ eq_filter w (Form.id form) formId = true.
Proof.
  rewrite (form_of_db w (start d)). destruct (forms_mode w); try done. simpl.
  destruct (List.filter _ _) as [|f [|]] eqn:Hf; try done. intros [= ->].
  apply (filter_In (fun f => eq_filter w (Form.id f) formId)).
  rewrite Hf. by left.
Qed.

Lemma recipients_of_In w d formId emails email :
  recipients_of w d formId = Some emails ->
  In email emails ->
  exists setting,
    In setting (notification_settings d) /\
    eq_filter w (NotificationSetting.form_id setting) formId = true /\
    NotificationSetting.enabled setting = true /\
    NotificationSetting.email setting = email.
Proof.
  rewrite (recipients_of_db w (start d)). destruct (settings_mode w); try done.
  - intros [= <-] Hin. apply in_map_iff in Hin as (setting & <- & Hin).
    apply filter_In in Hin as (Hin & Hok). apply andb_true_iff in Hok as (? & ?).
    by exists setting.
  - by intros [= <-] [].
Qed.

(** X12.  The notification handler answers any method but [POST] with
    405 and the plain text "Method Not Allowed", with no headers; the body
    is not parsed, and nothing is logged, read from the store or sent. *)
Theorem dispatch_refuses_other_methods w d event :
  httpMethod event <> str "POST" ->
  dispatch w d event = (start d, inr method_not_allowed).
Proof.
  intros Hm. unfold dispatch, SendNotification.handler.
  by rewrite (bool_decide_eq_false_2 _ Hm).
Qed.

(** X13.  A POST to the notification handler whose payload does not
    parse, or parses to [null], is answered 500
    [{error: "Failed to send notification"}]; the store is not read and
    no request is sent. *)
Theorem dispatch_malformed_payload_answers_500 w d event :
  httpMethod event = str "POST" ->
  JSON_parse w (SendNotification.body_or_empty event) = None \/
    (exists payload,
       JSON_parse w (SendNotification.body_or_empty event) = Some payload /\
       unreadable payload) ->
  (dispatch w d event).2 =
    inr (answer w 500 "error" (JStr (str "Failed to send notification"))) /\
  saw is_store_access (dispatch w d event).1 = false /\
  saw is_fetch (dispatch w d event).1 = false.
Proof.
  intros Hm Hbad. pose proof (post_is_post _ Hm).
  unfold dispatch, saw. wp_start. unfold SendNotification.handler.
  destruct Hbad as [Hb|(payload & Hb & Hu)]; unfold unreadable in *.
  all: wp; done.
Qed.

(** X14.  A dispatch for which the form lookup does not reject and
    hands back no form (no form has the id, several have it, or the store
    reports an error) is answered 404 [{error: "Form not found"}]; the
    notification settings are not read and no request is sent. *)
Theorem dispatch_unknown_form_answers_404 w d event payload formId :
  httpMethod event = str "POST" ->
  JSON_parse w (SendNotification.body_or_empty event) = Some payload ->
  get payload (str "formId") = inr formId ->
  forms_mode w <> Throws ->
  form_of w d formId = None ->
  (dispatch w d event).2 = inr (answer w 404 "error" (JStr (str "Form not found"))) /\
  saw is_settings_lookup (dispatch w d event).1 = false /\
  saw is_fetch (dispatch w d event).1 = false.
Proof.
  intros Hm Hb Hf Hmode Hform. pose proof (post_is_post _ Hm).
  unfold dispatch, saw. wp_start. unfold SendNotification.handler.
  wp; try done.
  all: rewrite Hform; wp; done.
Qed.

(** X15.  The notification handler only reads the store: after any run
    the store is as it was and [insert] was not called.  It answers with
    one of its five responses, none of which carries headers. *)
Theorem dispatch_only_reads_the_store w d event :
  db (dispatch w d event).1 = d /\
  saw is_insert (dispatch w d event).1 = false /\
  exists response,
    (dispatch w d event).2 = inr response /\
    In response (responses_of_dispatch w) /\
    resp_headers response = JUndefined.
Proof.
  unfold dispatch, saw. wp_start. unfold SendNotification.handler.
  wp. all: (split; [done|]).
  all: rewrite ?existsb_app, ?sends_are_fetches by done.
  all: (split; [done|]); eexists; (split; [reflexivity|]).
  all: split; [|reflexivity].
  all: unfold responses_of_dispatch, answer, method_not_allowed; simpl; auto 10.
Qed.

(** X16.  The notification handler answers 500 only when the payload
    does not parse, or parses to [null], or a store call rejects, or the
    request for some recipient is rejected.  An email endpoint that
    answers with an error status is not a cause: the status of the
    answers is not looked at. *)
Theorem dispatch_failure_has_a_cause w d event response :
  (dispatch w d event).2 = inr response ->
  statusCode response = 500%N ->
  JSON_parse w (SendNotification.body_or_empty event) = None \/
  (exists payload,
     JSON_parse w (SendNotification.body_or_empty event) = Some payload /\
     unreadable payload) \/
  forms_mode w = Throws \/
  settings_mode w = Throws \/
  existsb rejected (inflight (dispatch w d event).1) = true.
Proof.
  revert response. unfold dispatch. wp_start. unfold SendNotification.handler.
  wp. all: intros response [= <-] Hs; try discriminate Hs.
  all: try (left; reflexivity).
  all: right.
  all: match goal with
       | H : get ?b _ = inl _ |- _ =>
           left; eexists; split; [reflexivity|]; unfold unreadable; by destruct b
       | H : forms_mode _ = Throws |- _ => right; by left
       | H : recipients_of _ _ _ = None |- _ =>
           do 2 right; left; rewrite recipients_of_db in H;
           by destruct (settings_mode w)
       | H : first_rejection _ = Some _ |- _ =>
           do 3 right; exact (first_rejection_rejected _ _ H)
       end.
Qed.

(** X17.  Every request the notification handler sends goes to the
    email endpoint and is the email for a recipient that the store lists
    as enabled for the form of the payload, built from a registered form
    with that id: a disabled recipient, or the recipient of another form,
    is never mailed. *)
Theorem dispatch_only_mails_enabled_recipients w d event url init :
  In (EvFetch url init) (trace (dispatch w d event).1) ->
  url = SendNotification.email_url w /\
  exists payload form setting,
    JSON_parse w (SendNotification.body_or_empty event) = Some payload /\
    In form (forms d) /\
    eq_filter w (Form.id form) (field payload "formId") = true /\
    In setting (notification_settings d) /\
    eq_filter w (NotificationSetting.form_id setting) (field payload "formId") = true /\
    NotificationSetting.enabled setting = true /\
    init = SendNotification.email_init w form (field payload "formId")
             (field payload "message") (field payload "userName")
             (field payload "userEmail") (NotificationSetting.email setting).
Proof.
  unfold dispatch. wp_start. unfold SendNotification.handler.
  wp. all: rewrite ?in_app_iff; simpl; intros Hin.
  all: try (exfalso; by intuition discriminate).
  all: match goal with
       | Hf : get _ (str "formId") = inr _,
         Hform : form_of _ _ _ = Some _,
         Hrec : recipients_of _ _ _ = Some _ |- _ =>
           pose proof (field_get _ "formId"%string _ Hf) as <-;
           apply form_of_In in Hform as (? & ?);
           simpl in Hrec;
           pose proof (fun email => recipients_of_In _ _ _ _ email Hrec) as Hsetting
       end.
  all: assert (url = SendNotification.email_url w /\
               exists email, In email (l0 :: l1) /\
                 init = SendNotification.email_init w t (field j "formId")
                          (field j "message") (field j "userName")
                          (field j "userEmail") email) as (-> & email & Hemail & ->).
  1, 3: repeat match goal with H : _ \/ _ |- _ => destruct H end;
        simplify_eq; try done.
  1, 3: split; [done|]; eexists; split; [by left|done].
  1, 2: match goal with H : In _ (flat_map _ _) |- _ =>
          apply in_sends in H as (-> & H); apply in_map_iff in H as (email & <- & H)
        end; split; [done|]; eexists; split; [by right|done].
  all: destruct (Hsetting _ Hemail) as (setting & ? & ? & ? & <-).
  all: split; [done|]; by exists j, t, setting.
Qed.

End DispatchFurther.

(** ** The widget *)

Section WidgetProperties.
Import Behaviour Widget.

Lemma trimStart_head s c t : trimStart s = c :: t -> is_white_space c = false.
Proof.
  induction s as [|a s IH]; simpl; [done|].
  destruct (is_white_space a) eqn:Ha; [done|]. by intros [= <- <-].
Qed.

Lemma trimStart_idem s : trimStart (trimStart s) = trimStart s.
Proof.
  destruct (trimStart s) as [|c t] eqn:E; [done|].
  simpl. by rewrite (trimStart_head _ _ _ E).
Qed.

Lemma trimStart_snoc s c :
  is_white_space c = false -> trimStart (s ++ [c]) = trimStart s ++ [c].
Proof.
  intros Hc. induction s as [|a s IH]; simpl; [by rewrite Hc|].
  by destruct (is_white_space a).
Qed.

Lemma trimEnd_cons c s :
  is_white_space c = false -> trimEnd (c :: s) = c :: trimEnd s.
Proof.
  intros Hc. unfold trimEnd. simpl. rewrite trimStart_snoc by done.
  by rewrite rev_app_distr.
Qed.

Lemma trimEnd_idem s : trimEnd (trimEnd s) = trimEnd s.
Proof. unfold trimEnd. by rewrite rev_involutive, trimStart_idem. Qed.

(** Trimming a trimmed string changes nothing. *)
Lemma trim_idem s : trim (trim s) = trim s.
Proof.
  unfold trim at 1.
  assert (trimStart (trim s) = trim s) as ->; [|apply trimEnd_idem].
  unfold trim. destruct (trimStart s) as [|c t] eqn:E; [done|].
  pose proof (trimStart_head _ _ _ E) as Hc.
  rewrite trimEnd_cons by done. simpl. by rewrite Hc.
Qed.

(** A property that every action keeps holds after every run. *)
Lemma step_invariant (P : Page -> Prop) :
  (forall a p, P p -> P (step a p)) ->
  forall actions p, P p -> P (run actions p).
Proof.
  intros Hstep actions. unfold run.
  induction actions as [|a actions IH]; simpl; [done|].
  intros p Hp. by apply IH, Hstep.
Qed.

Lemma sent_is_trimmed_input actions message :
  In message (sent (run actions installed)) ->
  message <> [] /\ exists value, message = trim value.
Proof.
  revert message.
  apply (step_invariant
           (fun p => forall message, In message (sent p) ->
                     message <> [] /\ exists value, message = trim value)); [|done].
  intros a p Hp message. destruct a; simpl; auto.
  - destruct (timers p); auto.
  - destruct (submit_disabled (elements p)); auto.
    unfold submit_click. case_bool_decide as Hm; simpl; auto.
    rewrite in_app_iff. intros [?|[<-|[]]]; auto.
    split; [done|]. by eexists.
  - destruct (in_flight p); auto.
Qed.

(** X18.  [submitFeedback] sends one POST to the feedback endpoint of
    userbird.netlify.app, with the origin of the page and the JSON of
    [{formId, message}], and waits for it.  It fulfils, with the parsed
    body, exactly when the answer has a status from 200 to 299 and a body
    that parses as JSON; a rejected request, any other status or any other
    body makes it throw. *)
Theorem submitFeedback_fulfils_on_2xx_json w origin formId message s :
  exists p,
    trace (submitFeedback w origin formId message s).1 =
      trace s ++ [feedback_request w origin formId message] /\
    inflight (submitFeedback w origin formId message s).1 = inflight s ++ [p] /\
    settle_at p <= now (submitFeedback w origin formId message s).1 /\
    forall v,
      (submitFeedback w origin formId message s).2 = inr v <->
      exists st text,
        outcome p = Responds st (Some text) /\ delivered p = true /\
        JSON_parse w text = Some v.
Proof.
  wp_start. unfold submitFeedback, json. wp.
  all: eexists; (split; [reflexivity|]); (split; [reflexivity|]); simpl.
  all: (split; [lia|]); intros v; unfold delivered; simpl.
  all: repeat match goal with H : (network _ _ _ _).2 = _ |- _ => rewrite H end.
  all: unfold ok in *; simpl in *.
  all: split; [intros Hr|intros (st & t & Ho & Hd & Hp)]; simplify_eq/=; try done.
  all: try congruence.
  by do 2 eexists.
Qed.

(** X19.  [init] asks for the settings of the form once and does not
    look at the status of the answer: it installs the widget exactly when
    the answer has a body that parses as JSON to a value whose
    [button_color] can be read (anything but [null]), with the colour
    #1f2937 when [button_color] is absent or otherwise falsy, and it
    attaches its handlers only when the page has the trigger.  In every
    other case it throws and installs nothing. *)
Theorem init_does_not_check_the_status w formId trigger s :
  exists p,
    inflight (init w formId trigger s).1 = inflight s ++ [p] /\
    forall installation,
      (init w formId trigger s).2 = inr installation <->
      exists st text settings button_color,
        outcome p = Responds st (Some text) /\
        JSON_parse w text = Some settings /\
        get settings (str "button_color") = inr button_color /\
        installation =
          {| style := template w [or button_color (JStr (str "#1f2937"))];
             modal := createModal; listening := trigger |}.
Proof.
  wp_start. unfold init, json, injectStyles. wp.
  all: eexists; (split; [reflexivity|]); intros installation; simpl.
  all: repeat match goal with H : (network _ _ _ _).2 = _ |- _ => rewrite H end.
  all: split; [intros Hr|intros (st & t & settings & c & Ho & Hp & Hg & Hi)];
    simplify_eq/=; try done.
  all: try congruence.
  by do 4 eexists.
Qed.

(** X20.  Whatever the user and the network do, the modal and its
    backdrop are open together, the form is hidden exactly when the
    success panel is shown, the submit button reads "Sending Feedback..."
    exactly when it is disabled, and the error element is either untouched
    or shows "Failed to submit feedback". *)
Theorem widget_panels_stay_consistent actions :
  let el := elements (run actions installed) in
  modal_open el = backdrop_open el /\
  form_hidden el = success_open el /\
  submit_text el = label_of (submit_disabled el) /\
  (error_display el = [] /\ error_text el = [] \/
   error_display el = str "block" /\ error_text el = str "Failed to submit feedback").
Proof.
  cbv zeta. apply step_invariant; [|repeat split; try reflexivity; by left].
  intros a p (H1 & H2 & H3 & H4). destruct a; simpl; try done.
  - by destruct (timers p).
  - destruct (submit_disabled (elements p)) eqn:Hd; [by rewrite Hd|].
    unfold submit_click. case_bool_decide; simpl; [by rewrite Hd|done].
  - destruct (in_flight p); [done|]. destruct result; simpl; [|done]. by auto 10.
Qed.

(** X21.  Every message the widget passes to [submitFeedback] is the
    trimmed value of the textarea, is not empty, and has no white space
    left to trim: a blank textarea is never submitted. *)
Theorem widget_sends_trimmed_messages actions message :
  In message (sent (run actions installed)) ->
  message <> [] /\ trim message = message /\
  exists value, message = trim value.
Proof.
  intros Hsent. destruct (sent_is_trimmed_input _ _ Hsent) as (Hne & value & ->).
  split; [done|]. split; [apply trim_idem|by eexists].
Qed.

(** X22.  Once a submission has failed, the error stays on display:
    no handler hides the error element or clears its text, so it is still
    shown after the modal is closed, reset and reopened, and after a later
    submission succeeds. *)
Theorem widget_error_is_never_cleared actions p :
  error_display (elements p) = str "block" ->
  error_display (elements (run actions p)) = str "block" /\
  (error_text (elements (run actions p)) = error_text (elements p) \/
   error_text (elements (run actions p)) = str "Failed to submit feedback").
Proof.
  intros Hp.
  apply (step_invariant
           (fun q => error_display (elements q) = str "block" /\
                     (error_text (elements q) = error_text (elements p) \/
                      error_text (elements q) = str "Failed to submit feedback")));
    [|by split; [|left]].
  intros a q Hq. destruct a; simpl; auto.
  - destruct (timers q); auto.
  - destruct (submit_disabled (elements q)); auto.
    unfold submit_click. case_bool_decide; auto.
  - destruct (in_flight q); auto. destruct result; simpl; auto.
Qed.

(** X23.  The success panel is shown only after some call of
    [submitFeedback] has fulfilled. *)
Theorem widget_success_needs_a_fulfilled_submission actions :
  success_open (elements (run actions installed)) = true ->
  exists v, In (Settles (inr v)) actions.
Proof.
  assert (forall actions p,
            success_open (elements (run actions p)) = true ->
            success_open (elements p) = true \/
            exists v, In (Settles (inr v)) actions) as H.
  { clear. intros actions. unfold run.
    induction actions as [|a actions IH]; simpl; [by left|].
    intros p Hs. destruct (IH _ Hs) as [Hp|[v Hv]]; [|right; eauto].
    destruct a; simpl in Hp; auto.
    - destruct (timers p); simpl in Hp; auto. discriminate.
    - destruct (submit_disabled (elements p)); auto.
      unfold submit_click in Hp. case_bool_decide; auto.
    - destruct (in_flight p); auto. destruct result; simpl in Hp; eauto. }
  intros Hs. by destruct (H _ _ Hs).
Qed.

(** X24.  Disabling the submit button does not keep a second
    submission from starting while one is in flight: closing the modal
    schedules a reset that enables the button again, so that after the
    reset the reopened modal takes another message and sends it, whatever
    the page was doing. *)
Theorem widget_reopened_modal_takes_a_second_submission p value :
  trim value <> [] ->
  let p' := run [ClickClose; TimerFires; ClickTrigger; Input value; ClickSubmit] p in
  in_flight p' = S (in_flight p) /\
  sent p' = sent p ++ [trim value] /\
  submit_disabled (elements p') = true.
Proof.
  intros Hv. simpl. unfold submit_click. simpl.
  by rewrite (bool_decide_eq_false_2 _ Hv).
Qed.

(** X25.  What the widget sends passes the field check of the
    ingestion handler: a POST whose body carries a truthy [formId] and,
    as [message], a message the widget passed to [submitFeedback], is
    never answered 400; it is answered 403, 200, or 500 when the store
    does not accept the insert. *)
Theorem widget_submissions_pass_the_field_check
    actions message w d event body formId :
  In message (sent (run actions installed)) ->
  httpMethod event = str "POST" ->
  JSON_parse w (Feedback.body_or_empty event) = Some body ->
  get body (str "formId") = inr formId ->
  truthy formId = true ->
  get body (str "message") = inr (JStr message) ->
  exists response,
    (ingest w d event).2 = inr response /\
    In response [ refused w event 403 "Origin not allowed"; accepted w event;
                  refused w event 500 "Internal server error" ] /\
    (statusCode response = 500%N -> insert_mode w <> Answers).
Proof.
  intros Hsent Hm Hb Hf Ht Hmsg.
  apply sent_is_trimmed_input in Hsent as (Hne & value & ->).
  assert (bool_decide (trim (trim value) = []) = false)
    by (rewrite trim_idem; by apply bool_decide_eq_false_2).
  pose proof (post_is_not_options _ Hm). pose proof (post_is_post _ Hm).
  unfold ingest. wp_start. unfold Feedback.handler.
  wp. all: eexists; (split; [reflexivity|]); simpl; split; [auto|]; try done.
  all: congruence.
Qed.

End WidgetProperties.

(** ** The scenarios, run *)

Import Scenario.

(** C1.  The submission of the specification, with the dispatcher
    behind the notification endpoint and three enabled recipients whose
    emails take [latency] ticks each.  The handler makes one request, the
    notification; the dispatcher, run on it, sends the three emails; and
    the handler returns its 200 at the very tick the run of the dispatcher
    ends, [latency] ticks or more after the insert, with nothing left
    pending.  The response waits for the dispatch, however long it
    takes. *)
Theorem C1_response_waits_for_notification (latency : nat) :
  let mail := world Answers true (network_with latency []) in
  let w := world Answers true (dispatcher_network mail (store four_settings)) in
  let event := submission example_com in
  let dispatched init := dispatch mail (store four_settings) (event_of init) in
  (ingest w (store four_settings) event).2 = inr (accepted w event) /\
  List.map (fun init => length (requests (dispatched init).1))
    (requests (ingest w (store four_settings) event).1) = [3] /\
  List.map (fun init => now (dispatched init).1)
    (requests (ingest w (store four_settings) event).1) =
    [now (ingest w (store four_settings) event).1] /\
  latency <= now (ingest w (store four_settings) event).1 /\
  pending (ingest w (store four_settings) event).1 = [].
Proof.
  intros mail w event dispatched. split; [|split; [|split; [|split]]].
  - vm_compute. reflexivity.
  - vm_compute. reflexivity.
  - vm_compute. reflexivity.
  - assert (now (ingest w (store four_settings) event).1 =
              Nat.max latency (Nat.max latency (Nat.max latency 0))) as ->
      by (vm_compute; reflexivity).
    lia.
  - apply ingest_leaves_no_request_pending.
Qed.

(** C2 at work: the notification request is rejected by the network, and
    the submission is still answered 200. *)
Lemma C2_witness :
  (ingest (world Answers true (network_with 7 [0])) (store [])
     (submission example_com)).2 =
  inr (accepted (world Answers true (network_with 7 [0])) (submission example_com)).
Proof.
  apply C2_notification_outcome_never_surfaces; vm_compute; reflexivity.
Defined.

(** C9 at work: the store accepts the insert and hands no row back. *)
Lemma C9_witness :
  saw is_fetch
    (ingest (world Answers false (network_with 7 [])) (store [])
       (submission None)).1 = false /\
  (ingest (world Answers false (network_with 7 [])) (store [])
     (submission None)).2 =
  inr (accepted (world Answers false (network_with 7 [])) (submission None)).
Proof.
  apply (C9_notification_needs_row_data (world Answers false (network_with 7 [])));
    vm_compute; reflexivity.
Defined.

(** C6 at work: the body [{}]. *)
Lemma C6_witness :
  (ingest usual (store []) (post None (Some (print (JObj []))))).2 =
  inr (refused usual (post None (Some (print (JObj [])))) 400 "Invalid request data").
Proof.
  apply (C6_invalid_fields usual (store []) (post None (Some (print (JObj []))))
           (JObj []) JUndefined JUndefined).
  - vm_compute; reflexivity.
  - vm_compute; reflexivity.
  - vm_compute; reflexivity.
  - vm_compute; reflexivity.
  - left. vm_compute; reflexivity.
Defined.

(** C6 as it was stated fails on the body [null]: it parses, it has no
    [formId], and reading its fields throws, which the handler answers
    with 500, not 400. *)
Lemma C6_counterexample :
  let event := post None (Some (str "null")) in
  httpMethod event = str "POST" /\
  JSON_parse usual (Feedback.body_or_empty event) = Some JNull /\
  field JNull "formId" = JUndefined /\
  (ingest usual (store []) event).2 =
    inr (refused usual event 500 "Internal server error") /\
  (ingest usual (store []) event).2 <>
    inr (refused usual event 400 "Invalid request data").
Proof. vm_compute. repeat split; try reflexivity. discriminate. Qed.

(** C10 at work: a body that is no JSON. *)
Lemma C10_witness :
  (ingest usual (store []) (post None (Some (str "not json")))).2 =
  inr (refused usual (post None (Some (str "not json"))) 500 "Internal server error").
Proof.
  apply (C10_unparseable_body usual (store []) (post None (Some (str "not json")))
           (str "not json")).
  - vm_compute; reflexivity.
  - vm_compute; reflexivity.
  - vm_compute; discriminate.
  - vm_compute; reflexivity.
Defined.

(** C10 as it was stated fails on the empty body: the empty string is
    not parseable as JSON, but the handler parses [{}] in its place and
    answers 400, not 500. *)
Lemma C10_counterexample :
  let event := post None (Some []) in
  httpMethod event = str "POST" /\
  JSON_parse usual [] = None /\
  (ingest usual (store []) event).2 =
    inr (refused usual event 400 "Invalid request data") /\
  (ingest usual (store []) event).2 <>
    inr (refused usual event 500 "Internal server error").
Proof. vm_compute. repeat split; try reflexivity. discriminate. Qed.

Lemma broken_button_is_valid :
  valid_fields broken_button (JStr (str "f1")) (str "Broken button").
Proof. repeat split; vm_compute; (reflexivity || discriminate). Defined.

(** C4 at work: the submission of the specification from
    [https://evil.com]. *)
Lemma C4_witness :
  (ingest usual (store []) (submission evil_com)).2 =
    inr (refused usual (submission evil_com) 403 "Origin not allowed") /\
  saw is_insert (ingest usual (store []) (submission evil_com)).1 = false /\
  feedback (db (ingest usual (store []) (submission evil_com)).1) = [].
Proof.
  apply (C4_forbidden_origin usual (store []) (submission evil_com) broken_button
           (JStr (str "f1")) (str "Broken button")).
  - vm_compute; reflexivity.
  - vm_compute; reflexivity.
  - vm_compute; reflexivity.
  - exact broken_button_is_valid.
  - right. exists f1. split; vm_compute; reflexivity.
Defined.

(** C4 as it was stated fails on a submission from [https://evil.com]
    whose message is blank: the form [f1] is registered at another URL,
    and the answer is the 400 of the field check, which comes first, not
    403. *)
Lemma C4_counterexample :
  let event := blank_submission evil_com in
  httpMethod event = str "POST" /\
  truthy (Feedback.declared_origin event) = true /\
  form_of usual (store []) (JStr (str "f1")) = Some f1 /\
  isValidOrigin usual (Feedback.declared_origin event) (JStr (Form.url f1)) = false /\
  (ingest usual (store []) event).2 =
    inr (refused usual event 400 "Invalid request data") /\
  (ingest usual (store []) event).2 <>
    inr (refused usual event 403 "Origin not allowed").
Proof. vm_compute. repeat split; try reflexivity. discriminate. Qed.

(** C5 at work: the submission of the specification from
    [https://example.com]. *)
Lemma C5_witness :
  (ingest usual (store []) (submission example_com)).2 =
    inr (accepted usual (submission example_com)) /\
  length (feedback (db (ingest usual (store []) (submission example_com)).1)) = 1.
Proof.
  destruct (C5_accepted_submission usual (store []) (submission example_com)
              broken_button (JStr (str "f1")) (str "Broken button") f1)
    as (Hr & record & Hf & _).
  - vm_compute; reflexivity.
  - vm_compute; reflexivity.
  - exact broken_button_is_valid.
  - vm_compute; reflexivity.
  - vm_compute; reflexivity.
  - vm_compute; reflexivity.
  - vm_compute; reflexivity.
  - split; [exact Hr|]. rewrite Hf. reflexivity.
Defined.

(** C5 as it was stated fails when the store refuses the insert: the
    same valid submission from the registered origin is answered 500, and
    no record is created. *)
Lemma C5_counterexample :
  let w := world Fails true (network_with 7 []) in
  let event := submission example_com in
  httpMethod event = str "POST" /\
  JSON_parse w (Feedback.body_or_empty event) = Some broken_button /\
  valid_fields broken_button (JStr (str "f1")) (str "Broken button") /\
  form_of w (store []) (JStr (str "f1")) = Some f1 /\
  isValidOrigin w (Feedback.declared_origin event) (JStr (Form.url f1)) = true /\
  (ingest w (store []) event).2 = inr (refused w event 500 "Internal server error") /\
  feedback (db (ingest w (store []) event).1) = [].
Proof. vm_compute. repeat split; try reflexivity. discriminate. Qed.

(** C7 at work: the submission of the specification with no origin. *)
Lemma C7_witness :
  saw is_form_lookup (ingest usual (store []) (submission None)).1 = false /\
  length (feedback (db (ingest usual (store []) (submission None)).1)) = 1.
Proof.
  destruct (C7_no_origin_skips_validation usual (store []) (submission None))
    as (Hskip & Hinsert).
  - vm_compute; reflexivity.
  - vm_compute; reflexivity.
  - split; [exact Hskip|].
    destruct (Hinsert broken_button (JStr (str "f1")) (str "Broken button"))
      as (row & rest & _ & _ & _ & Hstored).
    + vm_compute; reflexivity.
    + exact broken_button_is_valid.
    + rewrite Hstored; reflexivity.
Defined.

(** C8 at work: the only recipient of the form is disabled. *)
Lemma C8_witness :
  (dispatch usual (store [recipient "d@example.com" false]) notification).2 =
    inr (SendNotification.json_response usual 200
           (JObj [ (str "message", JStr (str "No notification settings found")) ])) /\
  saw is_fetch
    (dispatch usual (store [recipient "d@example.com" false]) notification).1 = false.
Proof.
  apply (C8_no_recipients usual (store [recipient "d@example.com" false])
           notification notified (JStr (str "f1")) f1).
  - vm_compute; reflexivity.
  - vm_compute; reflexivity.
  - vm_compute; reflexivity.
  - vm_compute; reflexivity.
  - vm_compute; reflexivity.
Defined.

(** C3 at work: three enabled recipients, the request of the second is
    rejected; three requests are sent all the same and a response comes
    back. *)
Lemma C3_witness :
  length
    (List.filter is_fetch
       (trace (dispatch (world Answers true (network_with 5 [1]))
                 (store four_settings) notification).1)) = 3 /\
  exists response,
    (dispatch (world Answers true (network_with 5 [1]))
       (store four_settings) notification).2 = inr response.
Proof.
  destruct (C3_fan_out_attempts_all_and_fails_fast
              (world Answers true (network_with 5 [1])) (store four_settings)
              notification notified (JStr (str "f1")) f1
              [str "a@example.com"; str "b@example.com"; str "c@example.com"])
    as (Hsent & _ & response & Hresponse & _).
  - vm_compute; reflexivity.
  - vm_compute; reflexivity.
  - vm_compute; reflexivity.
  - vm_compute; reflexivity.
  - vm_compute; reflexivity.
  - discriminate.
  - split; [rewrite Hsent; reflexivity|]. exists response. exact Hresponse.
Defined.

(** C3 as it was stated fails on the same dispatch: the wait is not
    settle-all.  The second request is rejected at tick 1, the other two
    settle at tick 5; the handler answers 500 at tick 1, when those two
    are still pending. *)
Lemma C3_counterexample :
  let w := world Answers true (network_with 5 [1]) in
  let run := dispatch w (store four_settings) notification in
  recipients_of w (store four_settings) (JStr (str "f1")) =
    Some [str "a@example.com"; str "b@example.com"; str "c@example.com"] /\
  List.map rejected (inflight run.1) = [false; true; false] /\
  List.map settle_at (inflight run.1) = [5; 1; 5] /\
  now run.1 = 1 /\
  List.map settle_at (pending run.1) = [5; 5] /\
  run.2 = inr (SendNotification.json_response w 500
                 (JObj [ (str "error", JStr (str "Failed to send notification")) ])).
Proof. vm_compute. repeat split; reflexivity. Qed.

(** ** The further properties, at work *)

Section FurtherScenarios.
Import Behaviour Cases.

(** X1 at work: a preflight from [https://example.com]. *)
Lemma preflight_answers_204_witness :
  ingest usual (store []) (request "OPTIONS") =
    (start (store []), inr (preflight (request "OPTIONS"))).
Proof. apply preflight_answers_204. reflexivity. Defined.

(** X2 at work: a [GET]. *)
Lemma other_methods_answer_405_witness :
  ingest usual (store []) (request "GET") =
    (start (store []), inr (refused usual (request "GET") 405 "Method not allowed")).
Proof. apply other_methods_answer_405; vm_compute; discriminate. Defined.

(** X5 at work: the submission of the specification from
    [https://example.com]. *)
Lemma insert_only_after_the_checks_witness :
  httpMethod (submission example_com) = str "POST" /\
  exists body formId message,
    JSON_parse usual (Feedback.body_or_empty (submission example_com)) = Some body /\
    valid_fields body formId message /\
    (truthy (Feedback.declared_origin (submission example_com)) = true ->
     origin_allowed usual (store []) formId
       (Feedback.declared_origin (submission example_com)) = true).
Proof.
  apply (insert_only_after_the_checks usual (store []) (submission example_com)).
  vm_compute; reflexivity.
Defined.

(** X7 at work: the body [{formId: "f1", message: true}]. *)
Lemma message_not_a_string_answers_500_witness :
  (ingest (knowing [flagged] usual) (store []) (post None (Some (print flagged)))).2 =
    inr (refused (knowing [flagged] usual) (post None (Some (print flagged)))
           500 "Internal server error") /\
  saw is_store_access
    (ingest (knowing [flagged] usual) (store [])
       (post None (Some (print flagged)))).1 = false /\
  db (ingest (knowing [flagged] usual) (store [])
        (post None (Some (print flagged)))).1 = store [].
Proof.
  apply (message_not_a_string_answers_500 (knowing [flagged] usual) (store [])
           (post None (Some (print flagged))) flagged (JStr (str "f1")) (JBool true));
    vm_compute; reflexivity.
Defined.

(** X8 at work: the store rejects the insert of the submission of the
    specification. *)
Lemma refused_insert_answers_500_witness :
  (ingest (world Throws true (network_with 7 [])) (store []) (submission None)).2 =
    inr (refused (world Throws true (network_with 7 [])) (submission None)
           500 "Internal server error") /\
  saw is_fetch
    (ingest (world Throws true (network_with 7 [])) (store [])
       (submission None)).1 = false /\
  db (ingest (world Throws true (network_with 7 [])) (store [])
        (submission None)).1 = store [].
Proof.
  apply (refused_insert_answers_500 (world Throws true (network_with 7 []))).
  - vm_compute; reflexivity.
  - vm_compute; discriminate.
Defined.

(** X9 at work: the 500 that answers the body [null]. *)
Lemma internal_error_has_a_cause_witness :
  httpMethod (post None (Some (str "null"))) = str "POST" /\
  (JSON_parse usual (Feedback.body_or_empty (post None (Some (str "null")))) = None \/
   exists body,
     JSON_parse usual (Feedback.body_or_empty (post None (Some (str "null")))) =
       Some body /\
     (unreadable body \/
      (truthy (field body "formId") = true /\
       optional_trim (field body "message") = inl TypeError) \/
      (saw is_insert (ingest usual (store []) (post None (Some (str "null")))).1 = true /\
       insert_mode usual <> Answers))).
Proof.
  apply (internal_error_has_a_cause usual (store []) (post None (Some (str "null")))
           (refused usual (post None (Some (str "null"))) 500 "Internal server error"));
    vm_compute; reflexivity.
Defined.

(** X10 at work: the message is stored with its blanks, and the empty
    [operating_system], the [false] of [image_url] and the [null] of
    [user_name] are replaced. *)
Lemma falsy_fields_take_the_defaults_witness :
  exists row,
    stored_rows
      (ingest (knowing [padded] usual) (store [])
         (post None (Some (print padded)))).1 = [[row]] /\
    FeedbackRecord.message row = JStr (str "  Broken button  ") /\
    FeedbackRecord.operating_system row = JStr (str "Unknown") /\
    FeedbackRecord.image_url row = JNull /\
    FeedbackRecord.user_name row = JNull.
Proof.
  destruct (falsy_fields_take_the_defaults (knowing [padded] usual) (store [])
              (post None (Some (print padded))) padded)
    as (row & Hrows & _ & Hmessage & Hos & _ & Hurl & _ & _ & _ & _ & Hname).
  - vm_compute; reflexivity.
  - vm_compute; reflexivity.
  - exists row. split; [exact Hrows|]. split; [exact Hmessage|].
    split; [apply Hos; reflexivity|]. split; [apply Hurl; reflexivity|].
    apply Hname; reflexivity.
Defined.

(** X11 at work: the notification request of the submission of the
    specification, which the network rejects. *)
Lemma notification_request_is_awaited_and_logged_witness :
  List.filter is_fetch
    (trace (ingest (world Answers true (network_with 7 [0])) (store [])
              (submission None)).1) =
    [EvFetch (notification_url (world Answers true (network_with 7 [0])))
       (notification_init (world Answers true (network_with 7 [0])) broken_button)] /\
  (ingest (world Answers true (network_with 7 [0])) (store []) (submission None)).2 =
    inr (accepted (world Answers true (network_with 7 [0])) (submission None)).
Proof.
  destruct (notification_request_is_awaited_and_logged
              (world Answers true (network_with 7 [0])) (store [])
              (submission None) broken_button)
    as (Hrequest & p & _ & _ & _ & Hresponse).
  - vm_compute; reflexivity.
  - vm_compute; reflexivity.
  - split; [exact Hrequest|exact Hresponse].
Defined.

(** X12 at work: a [GET] to the notification handler. *)
Lemma dispatch_refuses_other_methods_witness :
  dispatch usual (store four_settings) (request "GET") =
    (start (store four_settings), inr method_not_allowed).
Proof. apply dispatch_refuses_other_methods; vm_compute; discriminate. Defined.

(** X13 at work: a payload that is no JSON. *)
Lemma dispatch_malformed_payload_answers_500_witness :
  (dispatch usual (store four_settings) (post None (Some (str "not json")))).2 =
    inr (answer usual 500 "error" (JStr (str "Failed to send notification"))) /\
  saw is_store_access
    (dispatch usual (store four_settings) (post None (Some (str "not json")))).1 = false /\
  saw is_fetch
    (dispatch usual (store four_settings) (post None (Some (str "not json")))).1 = false.
Proof.
  apply dispatch_malformed_payload_answers_500.
  - vm_compute; reflexivity.
  - left. vm_compute; reflexivity.
Defined.

(** X14 at work: a payload for the form [f2], which is not
    registered. *)
Lemma dispatch_unknown_form_answers_404_witness :
  (dispatch (knowing [stray] usual) (store four_settings)
     (post None (Some (print stray)))).2 =
    inr (answer (knowing [stray] usual) 404 "error" (JStr (str "Form not found"))) /\
  saw is_settings_lookup
    (dispatch (knowing [stray] usual) (store four_settings)
       (post None (Some (print stray)))).1 = false /\
  saw is_fetch
    (dispatch (knowing [stray] usual) (store four_settings)
       (post None (Some (print stray)))).1 = false.
Proof.
  apply (dispatch_unknown_form_answers_404 (knowing [stray] usual)
           (store four_settings) (post None (Some (print stray))) stray
           (JStr (str "f2"))).
  - vm_compute; reflexivity.
  - vm_compute; reflexivity.
  - vm_compute; reflexivity.
  - vm_compute; discriminate.
  - vm_compute; reflexivity.
Defined.

(** X16 at work: the 500 of a dispatch in which the request for the
    second recipient is rejected. *)
Lemma dispatch_failure_has_a_cause_witness :
  JSON_parse (world Answers true (network_with 5 [1]))
    (SendNotification.body_or_empty notification) = None \/
  (exists payload,
     JSON_parse (world Answers true (network_with 5 [1]))
       (SendNotification.body_or_empty notification) = Some payload /\
     unreadable payload) \/
  forms_mode (world Answers true (network_with 5 [1])) = Throws \/
  settings_mode (world Answers true (network_with 5 [1])) = Throws \/
  existsb rejected
    (inflight (dispatch (world Answers true (network_with 5 [1]))
                 (store four_settings) notification).1) = true.
Proof.
  apply (dispatch_failure_has_a_cause (world Answers true (network_with 5 [1]))
           (store four_settings) notification
           (answer (world Answers true (network_with 5 [1])) 500 "error"
              (JStr (str "Failed to send notification"))));
    vm_compute; reflexivity.
Defined.

(** X17 at work: the request for [a@example.com], of the three the
    dispatch of the specification sends. *)
Lemma dispatch_only_mails_enabled_recipients_witness :
  SendNotification.email_url usual = SendNotification.email_url usual /\
  exists payload form setting,
    JSON_parse usual (SendNotification.body_or_empty notification) = Some payload /\
    In form (forms (store four_settings)) /\
    eq_filter usual (Form.id form) (field payload "formId") = true /\
    In setting (notification_settings (store four_settings)) /\
    eq_filter usual (NotificationSetting.form_id setting) (field payload "formId") = true /\
    NotificationSetting.enabled setting = true /\
    SendNotification.email_init usual f1 (JStr (str "f1")) (JStr (str "Broken button"))
      JUndefined JUndefined (str "a@example.com") =
    SendNotification.email_init usual form (field payload "formId")
      (field payload "message") (field payload "userName")
      (field payload "userEmail") (NotificationSetting.email setting).
Proof.
  apply (dispatch_only_mails_enabled_recipients usual (store four_settings)
           notification).
  vm_compute. do 5 right. left. reflexivity.
Defined.

(** X21 at work: the user types the message with blanks around it. *)
Lemma widget_sends_trimmed_messages_witness :
  str "Broken button" <> [] /\
  trim (str "Broken button") = str "Broken button" /\
  exists value, str "Broken button" = trim value.
Proof.
  apply (widget_sends_trimmed_messages
           [Widget.ClickTrigger; Widget.Input (str "  Broken button  ");
            Widget.ClickSubmit]).
  vm_compute. left. reflexivity.
Defined.

(** X22 at work: a submission fails; the modal is closed, reset and
    reopened, and a second submission succeeds. *)
Lemma widget_error_is_never_cleared_witness :
  let failed :=
    Widget.run [Widget.ClickTrigger; Widget.Input (str "Broken button");
                Widget.ClickSubmit; Widget.Settles (inl FetchError)]
      Widget.installed in
  let later :=
    Widget.run [Widget.ClickClose; Widget.TimerFires; Widget.ClickTrigger;
                Widget.Input (str "Broken button"); Widget.ClickSubmit;
                Widget.Settles (inr JNull)] failed in
  Widget.error_display (Widget.elements later) = str "block" /\
  (Widget.error_text (Widget.elements later) =
     Widget.error_text (Widget.elements failed) \/
   Widget.error_text (Widget.elements later) = str "Failed to submit feedback").
Proof.
  cbv zeta. apply widget_error_is_never_cleared. vm_compute; reflexivity.
Defined.

(** X23 at work: the success panel after a submission that
    fulfilled. *)
Lemma widget_success_needs_a_fulfilled_submission_witness :
  exists v,
    In (Widget.Settles (inr v))
      [Widget.ClickTrigger; Widget.Input (str "Broken button");
       Widget.ClickSubmit; Widget.Settles (inr JNull)].
Proof.
  apply widget_success_needs_a_fulfilled_submission. vm_compute; reflexivity.
Defined.

(** X24 at work: a second message while the first submission is in
    flight. *)
Lemma widget_reopened_modal_takes_a_second_submission_witness :
  let submitting :=
    Widget.run [Widget.ClickTrigger; Widget.Input (str "Broken button");
                Widget.ClickSubmit] Widget.installed in
  let again :=
    Widget.run [Widget.ClickClose; Widget.TimerFires; Widget.ClickTrigger;
                Widget.Input (str "Again"); Widget.ClickSubmit] submitting in
  Widget.in_flight again = S (Widget.in_flight submitting) /\
  Widget.sent again = Widget.sent submitting ++ [trim (str "Again")] /\
  Widget.submit_disabled (Widget.elements again) = true.
Proof.
  cbv zeta. apply widget_reopened_modal_takes_a_second_submission.
  vm_compute; discriminate.
Defined.

(** X25 at work: the message the widget sends, in the submission of the
    specification. *)
Lemma widget_submissions_pass_the_field_check_witness :
  exists response,
    (ingest usual (store []) (submission example_com)).2 = inr response /\
    In response
      [ refused usual (submission example_com) 403 "Origin not allowed";
        accepted usual (submission example_com);
        refused usual (submission example_com) 500 "Internal server error" ] /\
    (statusCode response = 500%N -> insert_mode usual <> Answers).
Proof.
  apply (widget_submissions_pass_the_field_check
           [Widget.ClickTrigger; Widget.Input (str "  Broken button  ");
            Widget.ClickSubmit]
           (str "Broken button") usual (store []) (submission example_com)
           broken_button (JStr (str "f1"))).
  - vm_compute. left. reflexivity.
  - vm_compute; reflexivity.
  - vm_compute; reflexivity.
  - vm_compute; reflexivity.
  - vm_compute; reflexivity.
  - vm_compute; reflexivity.
Defined.

End FurtherScenarios.
